(** * Nested-structure utilities of [tensorflow_probability.python.internal.nest_util]

    A shallow embedding of [nest_util.py]: the structure classifier
    ([expand_as_args], [_expand_as_kwargs]), the broadcaster
    ([broadcast_structure]), the call-convention resolver ([call_fn]), the
    recursive conversion engine ([_nested_convert_to_tensor],
    [convert_args_to_tensor]) and the structured orchestrator
    ([convert_to_nested_tensor]).

    Python objects are a closed inductive type; exceptions are an explicit
    result type; the external leaf converter [tf.convert_to_tensor] and the
    name-scope facility are the operations of a [Backend] over an abstract
    world that the conversions thread through. *)

From Stdlib Require Import String Ascii ZArith Bool List Permutation.
From Stdlib Require Import DecimalString.
Import ListNotations.
Set Warnings "-register-all".
Local Open Scope string_scope.
Local Open Scope list_scope.

(* ================================================================== *)
(** ** Python values *)

(** The two override attributes [_tfp_nest_expansion_force_leaf] and
    [_tfp_nest_expansion_force_args].  [hasattr] sees class attributes, so a
    container rebuilt with [type(instance)(...)] keeps them. *)
Record markers : Type := Markers {
  has_force_leaf : bool;
  has_force_args : bool
}.

Definition unmarked : markers := Markers false false.

(** Numeric payload of arrays and tensors. *)
Inductive array : Type :=
| Num (z : Z)
| Arr (rows : list array).

Record tensor : Type := Tensor {
  tensor_dtype : string;
  tensor_value : array
}.

(** Objects that [tf.nest] does not look into. *)
Inductive atom : Type :=
| PyNone
| PyBool (b : bool)
| PyInt (z : Z)
| PyStr (s : string)
| PyDType (d : string)
| NdArray (a : array)
| TfTensor (t : tensor)
| PyObject (cls : string).

Inductive seq_kind : Type := KList | KTuple.

(** Dictionary keys and namedtuple field names are strings; a dictionary is
    the list of its items in insertion order. *)
Inductive pyobj : Type :=
| Atom (m : markers) (a : atom)
| Seq (k : seq_kind) (m : markers) (xs : list pyobj)
| NamedTuple (cls : string) (m : markers) (fields : list (string * pyobj))
| Dict (m : markers) (items : list (string * pyobj)).

Definition py_none : pyobj := Atom unmarked PyNone.
Definition py_bool (b : bool) : pyobj := Atom unmarked (PyBool b).
Definition py_false : pyobj := py_bool false.
Definition py_true : pyobj := py_bool true.
Definition py_int (z : Z) : pyobj := Atom unmarked (PyInt z).
Definition py_str (s : string) : pyobj := Atom unmarked (PyStr s).
Definition py_tensor (t : tensor) : pyobj := Atom unmarked (TfTensor t).
Definition py_list (xs : list pyobj) : pyobj := Seq KList unmarked xs.
Definition py_tuple (xs : list pyobj) : pyobj := Seq KTuple unmarked xs.
Definition py_dict (items : list (string * pyobj)) : pyobj := Dict unmarked items.

Definition markers_of (x : pyobj) : markers :=
  match x with
  | Atom m _ | Seq _ m _ | NamedTuple _ m _ | Dict m _ => m
  end.

(** [x is None] *)
Definition is_none (x : pyobj) : bool :=
  match x with
  | Atom _ PyNone => true
  | _ => false
  end.

(** Keys of a tuple path: sequence indices, field names and dictionary keys. *)
Inductive path_key : Type :=
| Index (i : nat)
| Key (s : string).

Abbreviation path := (list path_key).

(** ** Exceptions *)

Inductive exn : Type :=
| ValueError (msg : string)
| TypeError (msg : string)
| KeyError (k : path_key)
| NotImplementedError (msg : string) (saw : pyobj) (at_path : path)
| OtherError (cls : string) (msg : string).

Inductive result (A : Type) : Type :=
| Ok (a : A)
| Raise (e : exn).

Arguments Ok {A} a.
Arguments Raise {A} e.

(** The clause [except (ValueError, TypeError)]. *)
Definition is_value_or_type_error (e : exn) : bool :=
  match e with
  | ValueError _ | TypeError _ => true
  | _ => false
  end.

(* ================================================================== *)
(** ** Structure classifier *)

(** [isinstance(x, collections.Sequence)]: lists, tuples, namedtuples and
    also strings. *)
Definition isinstance_Sequence (x : pyobj) : bool :=
  match x with
  | Atom _ (PyStr _) => true
  | Atom _ _ => false
  | Seq _ _ _ => true
  | NamedTuple _ _ _ => true
  | Dict _ _ => false
  end.

Definition isinstance_Mapping (x : pyobj) : bool :=
  match x with
  | Dict _ _ => true
  | _ => false
  end.

Definition _is_namedtuple (x : pyobj) : bool :=
  match x with
  | NamedTuple _ _ _ => true
  | _ => false
  end.

Definition _force_leaf (struct : pyobj) : bool :=
  has_force_leaf (markers_of struct).

Definition _force_expand_as_args (struct : pyobj) : bool :=
  has_force_args (markers_of struct).

Definition expand_as_args (args : pyobj) : bool :=
  (isinstance_Sequence args && negb (_is_namedtuple args)
     && negb (_force_leaf args))
  || _force_expand_as_args args.

Definition _expand_as_kwargs (args : pyobj) : bool :=
  isinstance_Mapping args && negb (_force_leaf args).

Definition _maybe_convertible_to_tensor (struct : pyobj) : bool :=
  negb (_is_namedtuple struct) || _force_leaf struct.

(* ================================================================== *)
(** ** Call-convention resolver *)

(** A Python callable receives positional and keyword arguments. *)
Definition callable (R : Type) : Type :=
  list pyobj -> list (string * pyobj) -> result R.

Fixpoint chars (s : string) : list pyobj :=
  match s with
  | EmptyString => []
  | String c s' => py_str (String c EmptyString) :: chars s'
  end.

(** What [*args] iterates over. *)
Definition py_iter (x : pyobj) : result (list pyobj) :=
  match x with
  | Seq _ _ xs => Ok xs
  | NamedTuple _ _ fields => Ok (map snd fields)
  | Dict _ items => Ok (map (fun kv => py_str (fst kv)) items)
  | Atom _ (PyStr s) => Ok (chars s)
  | Atom _ _ => Raise (TypeError "argument after * must be an iterable")
  end.

(** [fn( *args )] *)
Definition call_star {R} (fn : callable R) (args : pyobj) : result R :=
  match py_iter args with
  | Ok xs => fn xs []
  | Raise e => Raise e
  end.

(** [fn( **args )] *)
Definition call_star_star {R} (fn : callable R) (args : pyobj) : result R :=
  match args with
  | Dict _ items => fn [] items
  | _ => Raise (TypeError "argument after ** must be a mapping")
  end.

(** [fn(args)] *)
Definition call_plain {R} (fn : callable R) (args : pyobj) : result R :=
  fn [args] [].

Definition call_fn {R} (fn : callable R) (args : pyobj) : result R :=
  if expand_as_args args then call_star fn args
  else if _expand_as_kwargs args then call_star_star fn args
  else call_plain fn args.

(* ================================================================== *)
(** ** The error monad of pure library code *)

Definition rbind {A B} (r : result A) (k : A -> result B) : result B :=
  match r with
  | Ok a => k a
  | Raise e => Raise e
  end.

Notation "x <~ r ;; k" := (rbind r (fun x => k))
  (at level 61, r at next level, right associativity).
Notation "' p <~ r ;; k" := (rbind r (fun p => k))
  (at level 61, p pattern, r at next level, right associativity).

Fixpoint rmap {A B} (f : A -> result B) (l : list A) : result (list B) :=
  match l with
  | [] => Ok []
  | a :: l' => b <~ f a ;; bs <~ rmap f l' ;; Ok (b :: bs)
  end.

Fixpoint assoc {K A} (eqb : K -> K -> bool) (k : K) (l : list (K * A))
  : option A :=
  match l with
  | [] => None
  | (k', a) :: l' => if eqb k k' then Some a else assoc eqb k l'
  end.

Definition path_key_eqb (a b : path_key) : bool :=
  match a, b with
  | Index i, Index j => Nat.eqb i j
  | Key s, Key t => String.eqb s t
  | _, _ => false
  end.

(* ================================================================== *)
(** ** The library [tensorflow.python.util.nest]

    [tf.nest] is an external library; the functions [nest_util] calls are
    modelled here after its Python implementation.  It knows nothing of the
    two override attributes. *)

Definition is_nested (x : pyobj) : bool :=
  match x with
  | Atom _ _ => false
  | _ => true
  end.

(** [sorted(dict)]: insertion sort of the items by key. *)
Fixpoint insert_item {A} (kv : string * A) (l : list (string * A))
  : list (string * A) :=
  match l with
  | [] => [kv]
  | kv' :: l' =>
      if (fst kv <=? fst kv')%string then kv :: l
      else kv' :: insert_item kv l'
  end.

Definition sort_items {A} (l : list (string * A)) : list (string * A) :=
  fold_right insert_item [] l.

Fixpoint enumerate_from {A} (i : nat) (l : list A) : list (path_key * A) :=
  match l with
  | [] => []
  | a :: l' => (Index i, a) :: enumerate_from (S i) l'
  end.

Definition keyed {A} (kv : string * A) : path_key * A := (Key (fst kv), snd kv).

(** [_yield_sorted_items] with [f] applied to every child: sequences by
    index, namedtuples by field, dictionaries by sorted key. *)
Definition sorted_items_with {A} (f : pyobj -> A) (x : pyobj)
  : list (path_key * A) :=
  match x with
  | Atom _ _ => []
  | Seq _ _ xs => enumerate_from 0 (map f xs)
  | NamedTuple _ _ fields => map (fun kv => (Key (fst kv), f (snd kv))) fields
  | Dict _ items =>
      map keyed (sort_items (map (fun kv => (fst kv, f (snd kv))) items))
  end.

Definition _yield_sorted_items (x : pyobj) : list (path_key * pyobj) :=
  sorted_items_with (fun c => c) x.

Definition _yield_value (x : pyobj) : list pyobj :=
  map snd (_yield_sorted_items x).

(** [len(x)] of a nested object. *)
Definition _num_elements (x : pyobj) : nat :=
  match x with
  | Atom _ _ => 0
  | Seq _ _ xs => List.length xs
  | NamedTuple _ _ fields => List.length fields
  | Dict _ items => List.length items
  end.

(** [_sequence_like(instance, args)]: a dictionary takes the values in sorted
    key order ([dict(zip(_sorted(instance), args))], looked up by key) and
    keeps its own key order; a namedtuple is rebuilt with
    [type(instance)( *args )]; any other sequence with
    [type(instance)(args)]. *)
Definition _sequence_like (instance : pyobj) (args : list pyobj)
  : result pyobj :=
  match instance with
  | Dict m items =>
      let result := combine (map fst (sort_items items)) args in
      items' <~ rmap (fun kv =>
                  match assoc String.eqb (fst kv) result with
                  | Some v => Ok (fst kv, v)
                  | None => Raise (KeyError (Key (fst kv)))
                  end) items ;;
      Ok (Dict m items')
  | NamedTuple cls m fields =>
      if Nat.eqb (List.length args) (List.length fields)
      then Ok (NamedTuple cls m (combine (map fst fields) args))
      else Raise (TypeError "__new__() got a wrong number of arguments")
  | Seq k m _ => Ok (Seq k m args)
  | Atom _ _ => Raise (TypeError "object is not a sequence")
  end.

(** [tf.nest.flatten] *)
Fixpoint flatten (structure : pyobj) : list pyobj :=
  match structure with
  | Atom _ _ => [structure]
  | _ => concat (map snd (sorted_items_with flatten structure))
  end.

(** One step of the packing loop, for one child. *)
Definition packer : Type := list pyobj -> result (pyobj * list pyobj).

Fixpoint run_packers (steps : list packer) (flat : list pyobj)
  : result (list pyobj * list pyobj) :=
  match steps with
  | [] => Ok ([], flat)
  | step :: steps' =>
      '(p, rest) <~ step flat ;;
      '(ps, rest') <~ run_packers steps' rest ;;
      Ok (p :: ps, rest')
  end.

(** [_packed_nest_with_indices]: the index into [flat] is kept as the list
    of the elements not consumed yet; running off the end is the
    [IndexError] that [pack_sequence_as] turns into a [ValueError]. *)
Fixpoint _packed_nest_with_indices (structure : pyobj)
  : list pyobj -> result (list pyobj * list pyobj) :=
  run_packers
    (map snd
       (sorted_items_with
          (fun s flat =>
             if is_nested s then
               '(child, rest) <~ _packed_nest_with_indices s flat ;;
               packed <~ _sequence_like s child ;;
               Ok (packed, rest)
             else
               match flat with
               | x :: rest => Ok (x, rest)
               | [] => Raise (ValueError "Could not pack sequence.")
               end)
          structure)).

Definition pack_sequence_as (structure : pyobj) (flat_sequence : list pyobj)
  : result pyobj :=
  if negb (is_nested structure) then
    match flat_sequence with
    | [x] => Ok x
    | _ => Raise (ValueError "Structure is a scalar but len(flat_sequence) != 1")
    end
  else
    '(packed, rest) <~ _packed_nest_with_indices structure flat_sequence ;;
    match rest with
    | [] => _sequence_like structure packed
    | _ :: _ => Raise (ValueError "Could not pack sequence.")
    end.

(** [tf.nest.map_structure(func, structure)] for a function that does not
    raise. *)
Definition map_structure (func : pyobj -> pyobj) (structure : pyobj)
  : result pyobj :=
  pack_sequence_as structure (map func (flatten structure)).

(* ================================================================== *)
(** ** Structure broadcaster *)

Definition broadcast_structure (to_structure from_structure : pyobj)
  : result pyobj :=
  let from_parts := flatten from_structure in
  match from_parts with
  | [part] => map_structure (fun _ => part) to_structure
  | _ => Ok from_structure
  end.

(* ================================================================== *)
(** ** Structural checks of [tf.nest] *)

Definition seq_kind_eqb (a b : seq_kind) : bool :=
  match a, b with
  | KList, KList | KTuple, KTuple => true
  | _, _ => false
  end.

Definition markers_eqb (a b : markers) : bool :=
  Bool.eqb (has_force_leaf a) (has_force_leaf b)
  && Bool.eqb (has_force_args a) (has_force_args b).

Definition list_eqb {A} (eqb : A -> A -> bool) (l l' : list A) : bool :=
  Nat.eqb (length l) (length l')
  && forallb (fun p => eqb (fst p) (snd p)) (combine l l').

(** [type(a) == type(b)]: the class of a container is its kind together with
    the override attributes its class carries. *)
Definition same_class (a b : pyobj) : bool :=
  match a, b with
  | Seq k m _, Seq k' m' _ => seq_kind_eqb k k' && markers_eqb m m'
  | NamedTuple c m fs, NamedTuple c' m' fs' =>
      String.eqb c c' && markers_eqb m m'
      && list_eqb String.eqb (map fst fs) (map fst fs')
  | Dict m _, Dict m' _ => markers_eqb m m'
  | _, _ => false
  end.

(** [isinstance(input, type(shallow))]: a class carrying override attributes
    derives from the plain container, a namedtuple class from [tuple]. *)
Definition isinstance_of_type (input shallow : pyobj) : bool :=
  same_class input shallow
  || match shallow, input with
     | Seq k m _, Seq k' _ _ => seq_kind_eqb k k' && markers_eqb m unmarked
     | Seq KTuple m _, NamedTuple _ _ _ => markers_eqb m unmarked
     | Dict m _, Dict _ _ => markers_eqb m unmarked
     | _, _ => false
     end.

Definition _same_namedtuples (a b : pyobj) : bool :=
  match a, b with
  | NamedTuple c _ fs, NamedTuple c' _ fs' =>
      String.eqb c c' && list_eqb String.eqb (map fst fs) (map fst fs')
  | _, _ => false
  end.

(** The strings among the elements [set(x)] iterates over. *)
Definition str_elements (x : pyobj) : list string :=
  match x with
  | Dict _ items => map fst items
  | _ =>
      flat_map (fun c => match c with
                         | Atom _ (PyStr s) => [s]
                         | _ => []
                         end)
               (match py_iter x with Ok xs => xs | Raise _ => [] end)
  end.

Fixpoint run_checks (checks : list (pyobj -> result unit))
  (inputs : list pyobj) : result unit :=
  match checks, inputs with
  | check :: checks', input :: inputs' =>
      _ <~ check input ;; run_checks checks' inputs'
  | _, _ => Ok tt
  end.

Fixpoint assert_shallow_structure (check_types : bool) (shallow_tree : pyobj)
  {struct shallow_tree} : pyobj -> result unit :=
  fun input_tree =>
    if is_nested shallow_tree then
      if negb (is_nested input_tree) then
        Raise (TypeError
          "If shallow structure is a sequence, input must also be a sequence.")
      else if check_types
              && negb (isinstance_of_type input_tree shallow_tree)
              && negb (_same_namedtuples shallow_tree input_tree
                       || (isinstance_Mapping shallow_tree
                           && isinstance_Mapping input_tree)) then
        Raise (TypeError "The two structures don't have the same sequence type.")
      else if negb (Nat.eqb (_num_elements input_tree)
                            (_num_elements shallow_tree)) then
        Raise (ValueError
          "The two structures don't have the same sequence length.")
      else if isinstance_Mapping shallow_tree
              && negb (forallb
                         (fun k => existsb (String.eqb k)
                                     (str_elements input_tree))
                         (str_elements shallow_tree)) then
        Raise (ValueError
          "The shallow_tree's keys are not a subset of the input_tree's keys.")
      else
        run_checks
          (map snd
             (sorted_items_with (assert_shallow_structure check_types)
                shallow_tree))
          (_yield_value input_tree)
    else Ok tt.

Fixpoint _recursive_assert_same_structure (check_types : bool) (nest1 : pyobj)
  {struct nest1} : pyobj -> result unit :=
  fun nest2 =>
    if negb (Bool.eqb (is_nested nest1) (is_nested nest2)) then
      Raise (ValueError
        "The two structures don't have the same nested structure.")
    else if negb (is_nested nest1) then Ok tt
    else if check_types
            && negb (same_class nest1 nest2)
            && negb (_same_namedtuples nest1 nest2
                     || (isinstance_Mapping nest1
                         && isinstance_Mapping nest2)) then
      Raise (TypeError "The two structures don't have the same nested structure.")
    else if check_types
            && isinstance_Mapping nest1 && isinstance_Mapping nest2
            && negb (forallb (fun k => existsb (String.eqb k)
                                         (str_elements nest2))
                             (str_elements nest1)
                     && forallb (fun k => existsb (String.eqb k)
                                            (str_elements nest1))
                                (str_elements nest2)) then
      Raise (ValueError
        "The two dictionaries don't have the same set of keys.")
    else
      run_checks
        (map snd
           (sorted_items_with (_recursive_assert_same_structure check_types)
              nest1))
        (_yield_value nest2).

Definition assert_same_structure (nest1 nest2 : pyobj) : result unit :=
  let len_nest1 := if is_nested nest1 then length (flatten nest1) else 1 in
  let len_nest2 := if is_nested nest2 then length (flatten nest2) else 1 in
  if negb (Nat.eqb len_nest1 len_nest2) then
    Raise (ValueError
      "The two structures don't have the same number of elements.")
  else _recursive_assert_same_structure true nest1 nest2.

(** [_yield_flat_up_to]: the parts of [input_tree] at the leaves of
    [shallow_tree], with their tuple paths. *)
Fixpoint _yield_flat_up_to (shallow_tree : pyobj) {struct shallow_tree}
  : pyobj -> path -> result (list (path * pyobj)) :=
  fun input_tree p =>
    if negb (is_nested shallow_tree) then Ok [(p, input_tree)]
    else
      let input_items := _yield_sorted_items input_tree in
      parts <~ rmap
                 (fun sub : path_key * (pyobj -> path ->
                                        result (list (path * pyobj))) =>
                    match assoc path_key_eqb (fst sub) input_items with
                    | Some input_subtree =>
                        snd sub input_subtree (p ++ [fst sub])
                    | None => Raise (KeyError (fst sub))
                    end)
                 (sorted_items_with _yield_flat_up_to shallow_tree) ;;
      Ok (concat parts).

Definition flatten_up_to (shallow_tree input_tree : pyobj)
  (check_types : bool) : result (list pyobj) :=
  _ <~ assert_shallow_structure check_types shallow_tree input_tree ;;
  parts <~ _yield_flat_up_to shallow_tree input_tree [] ;;
  Ok (map snd parts).

(** [zip(flat_path_gen, *flat_value_gen)] *)
Definition zip_with_paths (paths : list path) (flats : list (list pyobj))
  : list (path * list pyobj) :=
  fold_right
    (fun flat acc =>
       map (fun xa : pyobj * (path * list pyobj) =>
              (fst (snd xa), fst xa :: snd (snd xa)))
           (combine flat acc))
    (map (fun p => (p, [])) paths) flats.

(** [get_traverse_shallow_structure] for a traversal test that answers with a
    boolean.  The test of [_get_shallow_structure], [s is struct], compares
    identities: it holds of the object the traversal starts from and of no
    object nested in it.  The test therefore receives, next to [s], whether
    [s] is that starting object. *)
Fixpoint get_traverse_shallow_structure (traverse_fn : bool -> pyobj -> bool)
  (is_start : bool) (structure : pyobj) {struct structure} : result pyobj :=
  let to_traverse := traverse_fn is_start structure in
  if negb (is_nested structure) then Ok (py_bool to_traverse)
  else if negb to_traverse then Ok py_false
  else
    level_traverse <~
      rmap (fun branch : result pyobj => branch)
        (map snd
           (sorted_items_with
              (get_traverse_shallow_structure traverse_fn false) structure)) ;;
    _sequence_like structure level_traverse.

Definition _get_shallow_structure (struct : pyobj) : result pyobj :=
  get_traverse_shallow_structure (fun s_is_struct _ => s_is_struct) true
    struct.

(* ================================================================== *)
(** ** The external capabilities *)

(** [convert_to_tensor_op value dtype dtype_hint name] is
    [tf.convert_to_tensor]; an argument left out in the call is [None].  The
    world is whatever the library reads and writes (graph, name stack). *)
Class Backend : Type := {
  world : Type;
  convert_to_tensor_op :
    pyobj -> pyobj -> pyobj -> option string -> world -> result tensor * world;
  name_scope_enter : string -> world -> world;
  name_scope_exit : world -> world
}.

Section Engine.

Context {B : Backend}.

(** Computations that may raise and that act on the world. *)
Definition M (A : Type) : Type := world -> result A * world.

Definition ret {A} (a : A) : M A := fun w => (Ok a, w).

Definition raise {A} (e : exn) : M A := fun w => (Raise e, w).

Definition lift {A} (r : result A) : M A := fun w => (r, w).

Definition bind {A C} (m : M A) (k : A -> M C) : M C :=
  fun w =>
    match m w with
    | (Ok a, w') => k a w'
    | (Raise e, w') => (Raise e, w')
    end.

(** [try: body / except <catches>: pass] followed by [handler]. *)
Definition try_except {A} (body : M A) (catches : exn -> bool)
  (handler : M A) : M A :=
  fun w =>
    match body w with
    | (Ok a, w') => (Ok a, w')
    | (Raise e, w') => if catches e then handler w' else (Raise e, w')
    end.

Fixpoint sequence {A} (ms : list (M A)) : M (list A) :=
  match ms with
  | [] => ret []
  | m :: ms' =>
      bind m (fun a => bind (sequence ms') (fun l => ret (a :: l)))
  end.

Definition mapM {A C} (f : A -> M C) (l : list A) : M (list C) :=
  sequence (map f l).

Definition tf_convert_to_tensor (value dtype dtype_hint : pyobj)
  (name : option string) : M pyobj :=
  fun w =>
    match convert_to_tensor_op value dtype dtype_hint name w with
    | (Ok t, w') => (Ok (py_tensor t), w')
    | (Raise e, w') => (Raise e, w')
    end.

(** [with tf.name_scope(name): body] *)
Definition with_name_scope {A} (name : string) (body : M A) : M A :=
  fun w =>
    let (r, w') := body (name_scope_enter name w) in
    (r, name_scope_exit w').

Definition map_structure_with_tuple_paths_up_to (shallow_tree : pyobj)
  (func : path -> list pyobj -> M pyobj) (inputs : list pyobj)
  (check_types : bool) : M pyobj :=
  match inputs with
  | [] => raise (ValueError "Cannot map over no sequences")
  | input0 :: _ =>
      bind (lift (rmap (assert_shallow_structure check_types shallow_tree)
                    inputs)) (fun _ =>
      bind (lift (rmap (fun input_tree =>
                          flatten_up_to shallow_tree input_tree check_types)
                    inputs)) (fun flat_values =>
      bind (lift (_yield_flat_up_to shallow_tree input0 [])) (fun parts =>
      bind (mapM (fun args => func (fst args) (snd args))
              (zip_with_paths (map fst parts) flat_values)) (fun results =>
      lift (pack_sequence_as shallow_tree results)))))
  end.

Definition map_structure_up_to (shallow_tree : pyobj)
  (func : list pyobj -> M pyobj) (inputs : list pyobj) : M pyobj :=
  map_structure_with_tuple_paths_up_to shallow_tree (fun _ values => func values)
    inputs true.

(** A Python function of one, two or three positional parameters, applied to
    an argument tuple. *)
Definition lambda1 (f : pyobj -> M pyobj) (args : list pyobj) : M pyobj :=
  match args with
  | [s] => f s
  | _ => raise (TypeError "<lambda>() takes 1 positional argument")
  end.

Definition lambda2 (f : pyobj -> pyobj -> M pyobj) (args : list pyobj)
  : M pyobj :=
  match args with
  | [s; d] => f s d
  | _ => raise (TypeError "<lambda>() takes 2 positional arguments")
  end.

Definition lambda3 (f : pyobj -> pyobj -> pyobj -> M pyobj)
  (args : list pyobj) : M pyobj :=
  match args with
  | [v; d; h] => f v d h
  | _ => raise (TypeError "convert_fn() takes 4 positional arguments")
  end.

(* ================================================================== *)
(** ** Recursive conversion engine *)

(** The recursion on the children is written on the structure of [struct]:
    the children are converted in the order of [_yield_sorted_items] and put
    back with [_sequence_like].  [nested_convert_children_up_to] below shows
    that this is the source's
    [nest.map_structure_up_to(shallow_struct, lambda s: ..., struct)]. *)
Fixpoint _nested_convert_to_tensor (struct dtype : pyobj)
  (name : option string) {struct struct} : M pyobj :=
  if negb (is_none dtype) || negb (is_nested struct) then
    tf_convert_to_tensor struct dtype py_none None
  else
    let convert_children :=
      bind (sequence
              (map snd
                 (sorted_items_with
                    (fun s => _nested_convert_to_tensor s py_none name)
                    struct)))
           (fun results => lift (_sequence_like struct results)) in
    if _maybe_convertible_to_tensor struct then
      try_except (tf_convert_to_tensor struct py_none py_none name)
        is_value_or_type_error convert_children
    else convert_children.

Definition convert_args_to_tensor (args dtype : pyobj) (name : option string)
  : M pyobj :=
  if is_none dtype then
    if expand_as_args args || _expand_as_kwargs args then
      bind (lift (_get_shallow_structure args)) (fun shallow_args =>
      map_structure_up_to shallow_args
        (lambda1 (fun s => _nested_convert_to_tensor s py_none name)) [args])
    else _nested_convert_to_tensor args py_none name
  else
    map_structure_up_to dtype
      (lambda2 (fun s dtype => _nested_convert_to_tensor s dtype name))
      [args; dtype].

(* ================================================================== *)
(** ** Structured conversion orchestrator *)

Definition tf_is_tensor (x : pyobj) : bool :=
  match x with
  | Atom _ (TfTensor _) => true
  | _ => false
  end.

Definition isinstance_ndarray (x : pyobj) : bool :=
  match x with
  | Atom _ (NdArray _) => true
  | _ => false
  end.

(** [str(k)] of a path component. *)
Definition str_of_key (k : path_key) : string :=
  match k with
  | Index i => NilEmpty.string_of_uint (Nat.to_uint i)
  | Key s => s
  end.

(** ['.'.join(map(str, path))] *)
Definition join_path (p : path) : string :=
  String.concat "." (map str_of_key p).

Definition implicit_stack_message : string :=
  "Cannot convert a structure of tensors to a single tensor. Saw {} at path {}.".

Definition convert_fn (allow_packing : bool) (path : path)
  (value dtype dtype_hint : pyobj) (name : option string) : M pyobj :=
  if negb allow_packing && is_nested value
     && existsb (fun x => tf_is_tensor x || isinstance_ndarray x)
          (flatten value)
  then raise (NotImplementedError implicit_stack_message value path)
  else tf_convert_to_tensor value dtype dtype_hint name.

Definition convert_to_nested_tensor (value dtype dtype_hint : pyobj)
  (allow_packing : bool) (name : option string) : M pyobj :=
  let dtype_is_nested := is_nested dtype in
  let hint_is_nested := is_nested dtype_hint in
  bind (lift
          (if dtype_is_nested && hint_is_nested then
             _ <~ assert_same_structure dtype dtype_hint ;;
             Ok (dtype, dtype_hint)
           else if dtype_is_nested then
             hint <~ broadcast_structure dtype dtype_hint ;; Ok (dtype, hint)
           else if hint_is_nested then
             dt <~ broadcast_structure dtype_hint dtype ;; Ok (dt, dtype_hint)
           else Ok (dtype, dtype_hint)))
    (fun reconciled =>
       let dtype := fst reconciled in
       let dtype_hint := snd reconciled in
       if negb (is_nested dtype) then
         convert_fn allow_packing [] value dtype dtype_hint name
       else
         match name with
         | Some scope =>
             with_name_scope scope
               (map_structure_with_tuple_paths_up_to dtype
                  (fun path =>
                     lambda3 (fun v d h =>
                       convert_fn allow_packing path v d h
                         (Some (join_path path))))
                  [value; dtype; dtype_hint] false)
         | None =>
             map_structure_with_tuple_paths_up_to dtype
               (fun path =>
                  lambda3 (fun v d h =>
                    convert_fn allow_packing path v d h None))
               [value; dtype; dtype_hint] false
         end).

End Engine.

(* ================================================================== *)
(** ** Notions of the specification *)

(** No dictionary has a repeated key and no namedtuple a repeated field
    name, as in Python. *)
Inductive well_formed : pyobj -> Prop :=
| wf_atom m a : well_formed (Atom m a)
| wf_seq k m xs :
    Forall well_formed xs -> well_formed (Seq k m xs)
| wf_namedtuple cls m fields :
    NoDup (map fst fields) ->
    Forall (fun kv => well_formed (snd kv)) fields ->
    well_formed (NamedTuple cls m fields)
| wf_dict m items :
    NoDup (map fst items) ->
    Forall (fun kv => well_formed (snd kv)) items ->
    well_formed (Dict m items).

(** [tree_map f s] applies [f] at every leaf position of [s] and keeps the
    containers, their keys and their order. *)
Fixpoint tree_map (f : pyobj -> pyobj) (s : pyobj) : pyobj :=
  match s with
  | Atom _ _ => f s
  | Seq k m xs => Seq k m (map (tree_map f) xs)
  | NamedTuple cls m fields =>
      NamedTuple cls m (map (fun kv => (fst kv, tree_map f (snd kv))) fields)
  | Dict m items =>
      Dict m (map (fun kv => (fst kv, tree_map f (snd kv))) items)
  end.

(** The Shape of a Structure: its skeleton, every leaf erased. *)
Definition shape_of (s : pyobj) : pyobj := tree_map (fun _ => py_none) s.

Definition same_shape (a b : pyobj) : Prop := shape_of a = shape_of b.

(** [leafwise_converted v r]: [r] has the containers, keys and order of [v]
    and a tensor at every leaf position of [v]. *)
Inductive leafwise_converted : pyobj -> pyobj -> Prop :=
| lc_atom m a t : leafwise_converted (Atom m a) (py_tensor t)
| lc_seq k m xs rs :
    Forall2 leafwise_converted xs rs ->
    leafwise_converted (Seq k m xs) (Seq k m rs)
| lc_namedtuple cls m fields fields' :
    Forall2 (fun kv kv' => fst kv = fst kv'
                           /\ leafwise_converted (snd kv) (snd kv'))
            fields fields' ->
    leafwise_converted (NamedTuple cls m fields) (NamedTuple cls m fields')
| lc_dict m items items' :
    Forall2 (fun kv kv' => fst kv = fst kv'
                           /\ leafwise_converted (snd kv) (snd kv'))
            items items' ->
    leafwise_converted (Dict m items) (Dict m items').

(** The immediate children, in the order the object holds them. *)
Definition children (s : pyobj) : list pyobj :=
  match s with
  | Atom _ _ => []
  | Seq _ _ xs => xs
  | NamedTuple _ _ fields => map snd fields
  | Dict _ items => map snd items
  end.

(** [s] and everything nested in it. *)
Fixpoint substructures (s : pyobj) : list pyobj :=
  s :: match s with
       | Atom _ _ => []
       | Seq _ _ xs => flat_map substructures xs
       | NamedTuple _ _ fields =>
           flat_map (fun kv => substructures (snd kv)) fields
       | Dict _ items => flat_map (fun kv => substructures (snd kv)) items
       end.

(** The classifier as the specification words it (section 4.1), rules in
    priority order. *)
Inductive node_class : Type :=
| Leaf
| PositionalComposite
| KeyedComposite
| RecordComposite.

Definition classify (value : pyobj) : node_class :=
  if _force_leaf value then Leaf
  else if isinstance_Mapping value then KeyedComposite
  else if _is_namedtuple value then RecordComposite
  else if isinstance_Sequence value then PositionalComposite
  else if _force_expand_as_args value then PositionalComposite
  else Leaf.

Definition is_positional (c : node_class) : bool :=
  match c with
  | PositionalComposite => true
  | _ => false
  end.

(** The call-convention decision as the specification words it (section
    4.3). *)
Definition resolve_and_call_spec {R} (fn : callable R) (args : pyobj)
  : result R :=
  if is_positional (classify args) && negb (_force_leaf args) then
    call_star fn args
  else if isinstance_Mapping args && negb (_force_leaf args) then
    call_star_star fn args
  else call_plain fn args.

(* ================================================================== *)
(** ** A reference backend

    An instance of the external capabilities, used to run the engine on
    concrete inputs: numbers, arrays, tensors and rectangular sequences of
    them convert; anything else is rejected.  Every call is recorded in the
    world. *)

Fixpoint array_shape (a : array) : option (list nat) :=
  match a with
  | Num _ => Some []
  | Arr rows =>
      match rows with
      | [] => Some [0]
      | r :: rs =>
          match array_shape r with
          | None => None
          | Some sh =>
              if forallb (fun r' => match array_shape r' with
                                    | Some sh' => list_eqb Nat.eqb sh sh'
                                    | None => false
                                    end) rs
              then Some (S (length rs) :: sh)
              else None
          end
      end
  end.

Definition all_some {A} (l : list (option A)) : option (list A) :=
  fold_right (fun o acc => match o, acc with
                           | Some a, Some l' => Some (a :: l')
                           | _, _ => None
                           end) (Some []) l.

Fixpoint to_array (x : pyobj) : option array :=
  match x with
  | Atom _ (PyInt z) => Some (Num z)
  | Atom _ (PyBool b) => Some (Num (if b then 1 else 0))
  | Atom _ (NdArray a) => Some a
  | Atom _ (TfTensor t) => Some (tensor_value t)
  | Atom _ _ => None
  | Seq _ _ xs => option_map Arr (all_some (map to_array xs))
  | NamedTuple _ _ fields =>
      option_map Arr (all_some (map (fun kv => to_array (snd kv)) fields))
  | Dict _ _ => None
  end.

Definition dtype_name (dtype dtype_hint : pyobj) : string :=
  match dtype, dtype_hint with
  | Atom _ (PyDType d), _ => d
  | _, Atom _ (PyDType d) => d
  | _, _ => "int32"
  end.

Definition reference_convert (value dtype dtype_hint : pyobj) : result tensor :=
  match to_array value with
  | Some a =>
      match array_shape a with
      | Some _ => Ok (Tensor (dtype_name dtype dtype_hint) a)
      | None =>
          Raise (ValueError
            "Can't convert non-rectangular Python sequence to Tensor.")
      end
  | None =>
      Raise (ValueError
        "Attempt to convert a value with an unsupported type to a Tensor.")
  end.

Inductive event : Type :=
| Converted (value dtype dtype_hint : pyobj) (name : option string)
| ScopeEntered (name : string)
| ScopeExited.

Definition reference_backend : Backend := {|
  world := list event;
  convert_to_tensor_op value dtype dtype_hint name w :=
    (reference_convert value dtype dtype_hint,
     w ++ [Converted value dtype dtype_hint name]);
  name_scope_enter name w := w ++ [ScopeEntered name];
  name_scope_exit w := w ++ [ScopeExited]
|}.

(** The same converter with nothing recorded. *)
Definition silent_backend : Backend := {|
  world := unit;
  convert_to_tensor_op value dtype dtype_hint name w :=
    (reference_convert value dtype dtype_hint, w);
  name_scope_enter name w := w;
  name_scope_exit w := w
|}.

(** The keys of the container itself are distinct. *)
Definition keys_unique (s : pyobj) : Prop :=
  match s with
  | Dict _ items => NoDup (map fst items)
  | NamedTuple _ _ fields => NoDup (map fst fields)
  | _ => True
  end.

(** [node_related R s r]: [r] is the container of [s] with, at each place, a
    child related by [R] to the child of [s] there. *)
Definition node_related (R : pyobj -> pyobj -> Prop) (s r : pyobj) : Prop :=
  match s, r with
  | Seq k m xs, Seq k' m' rs => k = k' /\ m = m' /\ Forall2 R xs rs
  | NamedTuple cls m fields, NamedTuple cls' m' fields' =>
      cls = cls' /\ m = m'
      /\ Forall2 (fun kv kv' => fst kv = fst kv' /\ R (snd kv) (snd kv'))
                 fields fields'
  | Dict m items, Dict m' items' =>
      m = m'
      /\ Forall2 (fun kv kv' => fst kv = fst kv' /\ R (snd kv) (snd kv'))
                 items items'
  | _, _ => False
  end.

(** [g] applied to the immediate children. *)
Definition tree_map_node (g : pyobj -> pyobj) (s : pyobj) : pyobj :=
  match s with
  | Atom _ _ => s
  | Seq k m xs => Seq k m (map g xs)
  | NamedTuple cls m fields =>
      NamedTuple cls m (map (fun kv => (fst kv, g (snd kv))) fields)
  | Dict m items => Dict m (map (fun kv => (fst kv, g (snd kv))) items)
  end.

(** What [_get_shallow_structure] returns on a nested structure. *)
Definition shallow_of (s : pyobj) : pyobj :=
  tree_map_node (fun _ => py_false) s.


Section EngineNotions.

Context {B : Backend}.

(** [f] on the immediate children in traversal order, the results put back
    into the container. *)
Definition map_children (f : pyobj -> M pyobj) (s : pyobj) : M pyobj :=
  bind (mapM f (_yield_value s))
       (fun results => lift (_sequence_like s results)).

End EngineNotions.

(* ================================================================== *)
(** ** Concrete values used in examples *)

(** A callable that reports how many positional and keyword arguments it
    received. *)
Definition arity_probe : callable (nat * nat) :=
  fun positional keywords => Ok (length positional, length keywords).

(** A list whose class carries both override attributes. *)
Definition doubly_marked_list : pyobj :=
  Seq KList (Markers true true) [py_int 1; py_int 2].

(** A tuple whose class carries both override attributes. *)
Definition doubly_marked_tuple : pyobj :=
  Seq KTuple (Markers true true) [py_int 1; py_int 2].

(** A list whose class carries the force-leaf attribute only. *)
Definition leaf_marked_list : pyobj :=
  Seq KList (Markers true false) [py_int 1; py_int 2].

(** A dictionary whose class carries the force-positional attribute. *)
Definition positional_dict : pyobj :=
  Dict (Markers false true) [("x", py_int 1)].

Definition py_dtype (d : string) : pyobj := Atom unmarked (PyDType d).

(** [{'b': 'a', 'a': ['b', 'c']}] *)
Definition example_template : pyobj :=
  py_dict [("b", py_str "a"); ("a", py_list [py_str "b"; py_str "c"])].

(** [[1, 2]] *)
Definition int_pair : pyobj := py_list [py_int 1; py_int 2].

(** [[1, [2, 3]]] *)
Definition ragged_list : pyobj :=
  py_list [py_int 1; py_list [py_int 2; py_int 3]].

(** [{'a': 1, 'b': 2}] *)
Definition scalar_dict : pyobj := py_dict [("a", py_int 1); ("b", py_int 2)].

Definition vector_2 : tensor := Tensor "int32" (Arr [Num 1; Num 2]).
Definition vector_3 : tensor := Tensor "int32" (Arr [Num 1; Num 2; Num 3]).

(** Two tensors of the same shape, and two of different shapes. *)
Definition stackable_tensors : pyobj :=
  py_list [py_tensor vector_2; py_tensor vector_2].

Definition ragged_tensors : pyobj :=
  py_list [py_tensor vector_2; py_tensor vector_3].

(* ================================================================== *)
(** ** Relations between a structure and its conversion *)

(** [eagerly_converted v r]: every leaf of [v] has become a tensor and every
    composite of [v] has either become one tensor or kept its container, keys
    and order with its children converted likewise. *)
Inductive eagerly_converted : pyobj -> pyobj -> Prop :=
| ec_whole v t : eagerly_converted v (py_tensor t)
| ec_seq k m xs rs :
    Forall2 eagerly_converted xs rs ->
    eagerly_converted (Seq k m xs) (Seq k m rs)
| ec_namedtuple cls m fields fields' :
    Forall2 (fun kv kv' => fst kv = fst kv'
                           /\ eagerly_converted (snd kv) (snd kv'))
            fields fields' ->
    eagerly_converted (NamedTuple cls m fields) (NamedTuple cls m fields')
| ec_dict m items items' :
    Forall2 (fun kv kv' => fst kv = fst kv'
                           /\ eagerly_converted (snd kv) (snd kv'))
            items items' ->
    eagerly_converted (Dict m items) (Dict m items').

(** [matches_up_to R shallow r]: [r] has the containers, keys and order of
    [shallow] down to the leaves of [shallow], and holds at the place of each
    leaf [l] of [shallow] a part related to [l] by [R]. *)
Inductive matches_up_to (R : pyobj -> pyobj -> Prop) : pyobj -> pyobj -> Prop :=
| mu_leaf m a r : R (Atom m a) r -> matches_up_to R (Atom m a) r
| mu_seq k m xs rs :
    Forall2 (matches_up_to R) xs rs ->
    matches_up_to R (Seq k m xs) (Seq k m rs)
| mu_namedtuple cls m fields fields' :
    Forall2 (fun kv kv' => fst kv = fst kv'
                           /\ matches_up_to R (snd kv) (snd kv'))
            fields fields' ->
    matches_up_to R (NamedTuple cls m fields) (NamedTuple cls m fields')
| mu_dict m items items' :
    Forall2 (fun kv kv' => fst kv = fst kv'
                           /\ matches_up_to R (snd kv) (snd kv'))
            items items' ->
    matches_up_to R (Dict m items) (Dict m items').

(* ================================================================== *)
(** ** The two steps of [convert_to_nested_tensor] *)

(** The reconciliation of dtype and dtype_hint, the first statement of
    [convert_to_nested_tensor]. *)
Definition reconcile (dtype dtype_hint : pyobj) : result (pyobj * pyobj) :=
  if is_nested dtype && is_nested dtype_hint then
    _ <~ assert_same_structure dtype dtype_hint ;;
    Ok (dtype, dtype_hint)
  else if is_nested dtype then
    hint <~ broadcast_structure dtype dtype_hint ;; Ok (dtype, hint)
  else if is_nested dtype_hint then
    dt <~ broadcast_structure dtype_hint dtype ;; Ok (dt, dtype_hint)
  else Ok (dtype, dtype_hint).

Section Reconciled.

Context {B : Backend}.

(** The three naming branches of [convert_to_nested_tensor], on the
    reconciled dtype and dtype_hint. *)
Definition convert_reconciled (value dtype dtype_hint : pyobj)
  (allow_packing : bool) (name : option string) : M pyobj :=
  if negb (is_nested dtype) then
    convert_fn allow_packing [] value dtype dtype_hint name
  else
    match name with
    | Some scope =>
        with_name_scope scope
          (map_structure_with_tuple_paths_up_to dtype
             (fun path =>
                lambda3 (fun v d h =>
                  convert_fn allow_packing path v d h
                    (Some (join_path path))))
             [value; dtype; dtype_hint] false)
    | None =>
        map_structure_with_tuple_paths_up_to dtype
          (fun path =>
             lambda3 (fun v d h =>
               convert_fn allow_packing path v d h None))
          [value; dtype; dtype_hint] false
    end.

End Reconciled.

(* ================================================================== *)
(** ** More concrete values *)

(** [Point(x=1, y=2)] *)
Definition point_record : pyobj :=
  NamedTuple "Point" unmarked [("x", py_int 1); ("y", py_int 2)].

(** [[1, None, 3]] *)
Definition list_with_none : pyobj := py_list [py_int 1; py_none; py_int 3].

(** [[[1, 2], [3]]] under the dtype structure [[tf.float32, None]] *)
Definition two_parts : pyobj :=
  py_list [py_list [py_int 1; py_int 2]; py_list [py_int 3]].

Definition float_then_any : pyobj := py_list [py_dtype "float32"; py_none].

(** [{'a': 1, 'b': [2, 3]}] under the dtype structure
    [{'a': None, 'b': None}] *)
Definition int_and_list : pyobj :=
  py_dict [("a", py_int 1); ("b", py_list [py_int 2; py_int 3])].

Definition any_any : pyobj := py_dict [("a", py_none); ("b", py_none)].

(* ================================================================== *)
(** * Properties *)

(** ** Induction on Python values *)

Lemma pyobj_rect' (P : pyobj -> Prop)
  (Hatom : forall m a, P (Atom m a))
  (Hseq : forall k m xs, Forall P xs -> P (Seq k m xs))
  (Hnt : forall cls m fields,
      Forall (fun kv => P (snd kv)) fields -> P (NamedTuple cls m fields))
  (Hdict : forall m items,
      Forall (fun kv => P (snd kv)) items -> P (Dict m items)) :
  forall x, P x.
Proof.
  fix IH 1. intros [m a | k m xs | cls m fields | m items].
  - apply Hatom.
  - apply Hseq. induction xs as [| x xs IHxs]; constructor; auto.
  - apply Hnt. induction fields as [| [k v] fs IHfs]; constructor; auto.
  - apply Hdict. induction items as [| [k v] its IHits]; constructor; auto.
Qed.

(** ** Sorting the items of a dictionary *)

Section SortItems.

Context {A : Type}.

Lemma insert_item_perm (kv : string * A) l :
  Permutation (insert_item kv l) (kv :: l).
Proof.
  induction l as [| kv' l IH]; simpl; [reflexivity |].
  destruct (fst kv <=? fst kv')%string; [reflexivity |].
  rewrite IH. apply perm_swap.
Qed.

Lemma sort_items_perm (l : list (string * A)) : Permutation (sort_items l) l.
Proof.
  induction l as [| kv l IH]; simpl; [reflexivity |].
  rewrite insert_item_perm. now constructor.
Qed.

Lemma sort_items_length (l : list (string * A)) :
  length (sort_items l) = length l.
Proof. apply Permutation_length, sort_items_perm. Qed.

Lemma sort_items_NoDup (l : list (string * A)) :
  NoDup (map fst l) -> NoDup (map fst (sort_items l)).
Proof.
  intros H. eapply Permutation_NoDup; [| exact H].
  apply Permutation_map, Permutation_sym, sort_items_perm.
Qed.

Lemma sort_items_Forall (P : string * A -> Prop) l :
  Forall P l -> Forall P (sort_items l).
Proof.
  intros H. eapply Permutation_Forall; [| exact H].
  apply Permutation_sym, sort_items_perm.
Qed.

Lemma sort_items_In kv (l : list (string * A)) :
  In kv l <-> In kv (sort_items l).
Proof.
  split; apply Permutation_in;
    [apply Permutation_sym |]; apply sort_items_perm.
Qed.

End SortItems.

(** Sorting looks at the keys only. *)
Lemma insert_item_map {A C} (g : A -> C) kv (l : list (string * A)) :
  insert_item (fst kv, g (snd kv)) (map (fun x => (fst x, g (snd x))) l)
  = map (fun x => (fst x, g (snd x))) (insert_item kv l).
Proof.
  induction l as [| kv' l IH]; simpl; [reflexivity |].
  destruct (fst kv <=? fst kv')%string; simpl; [reflexivity |].
  now rewrite IH.
Qed.

Lemma sort_items_map {A C} (g : A -> C) (l : list (string * A)) :
  sort_items (map (fun x => (fst x, g (snd x))) l)
  = map (fun x => (fst x, g (snd x))) (sort_items l).
Proof.
  induction l as [| kv l IH]; simpl; [reflexivity |].
  rewrite IH. apply insert_item_map.
Qed.

Lemma enumerate_from_map {A C} (g : A -> C) i (l : list A) :
  enumerate_from i (map g l)
  = map (fun x => (fst x, g (snd x))) (enumerate_from i l).
Proof.
  revert i. induction l as [| a l IH]; intros i; simpl; [reflexivity |].
  now rewrite IH.
Qed.

Lemma enumerate_from_snd {A} i (l : list A) :
  map snd (enumerate_from i l) = l.
Proof.
  revert i. induction l as [| a l IH]; intros i; simpl; [reflexivity |].
  now rewrite IH.
Qed.

(** [sorted_items_with f] is [f] mapped over [_yield_sorted_items]. *)
Lemma sorted_items_with_map {A} (f : pyobj -> A) x :
  sorted_items_with f x
  = map (fun kc => (fst kc, f (snd kc))) (_yield_sorted_items x).
Proof.
  destruct x as [m a | k m xs | cls m fields | m items]; simpl.
  - reflexivity.
  - unfold _yield_sorted_items; simpl. rewrite map_id.
    apply enumerate_from_map.
  - unfold _yield_sorted_items; simpl. rewrite map_map. reflexivity.
  - unfold _yield_sorted_items; simpl.
    rewrite (sort_items_map f), (sort_items_map (fun c => c)).
    rewrite !map_map. apply map_ext_in. intros [k v] _. reflexivity.
Qed.

Lemma sorted_items_with_values {A} (f : pyobj -> A) x :
  map snd (sorted_items_with f x) = map f (_yield_value x).
Proof.
  rewrite sorted_items_with_map. unfold _yield_value.
  rewrite !map_map. reflexivity.
Qed.

Lemma yield_value_seq k m xs : _yield_value (Seq k m xs) = xs.
Proof.
  unfold _yield_value, _yield_sorted_items; simpl.
  rewrite map_id. apply enumerate_from_snd.
Qed.

Lemma yield_value_namedtuple cls m fields :
  _yield_value (NamedTuple cls m fields) = map snd fields.
Proof.
  unfold _yield_value, _yield_sorted_items; simpl.
  rewrite map_map. reflexivity.
Qed.

Lemma yield_value_dict m items :
  _yield_value (Dict m items) = map snd (sort_items items).
Proof.
  unfold _yield_value, _yield_sorted_items; simpl.
  rewrite (sort_items_map (fun c => c)), !map_map.
  apply map_ext. intros [k v]. reflexivity.
Qed.

Lemma yield_value_In x c : In c (_yield_value x) <-> In c (children x).
Proof.
  destruct x as [m a | k m xs | cls m fields | m items].
  - reflexivity.
  - rewrite yield_value_seq. reflexivity.
  - rewrite yield_value_namedtuple. reflexivity.
  - rewrite yield_value_dict. simpl. rewrite !in_map_iff.
    split; intros [kv [E H]]; exists kv; split; auto.
    + now apply (proj2 (sort_items_In kv items)).
    + now apply (proj1 (sort_items_In kv items)).
Qed.

Lemma yield_value_length x : length (_yield_value x) = _num_elements x.
Proof.
  destruct x as [m a | k m xs | cls m fields | m items].
  - reflexivity.
  - now rewrite yield_value_seq.
  - rewrite yield_value_namedtuple. apply length_map.
  - rewrite yield_value_dict, length_map. apply sort_items_length.
Qed.

(* ================================================================== *)
(** ** Structure classifier and call-convention resolver *)

(** Without the force-positional attribute the code decides as the
    specification words it. *)
Lemma call_fn_without_force_args {R} (fn : callable R) args :
  _force_expand_as_args args = false ->
  call_fn fn args = resolve_and_call_spec fn args.
Proof.
  intros H. unfold call_fn, resolve_and_call_spec, expand_as_args,
    _expand_as_kwargs, classify. rewrite H.
  destruct args as [m [] | k m xs | cls m fields | m items]; simpl;
    unfold _force_leaf; simpl; destruct (has_force_leaf m); reflexivity.
Qed.

(** C4 (as stated, refuted): on a list carrying both override attributes the
    claim passes the list as one argument, the code expands it; on a
    dictionary carrying the force-positional attribute the claim expands by
    keyword, the code positionally. *)
Lemma call_fn_three_way_counterexample :
  _force_leaf doubly_marked_list = true
  /\ call_fn arity_probe doubly_marked_list = Ok (2, 0)
  /\ resolve_and_call_spec arity_probe doubly_marked_list = Ok (1, 0)
  /\ isinstance_Mapping positional_dict = true
  /\ _force_leaf positional_dict = false
  /\ call_fn arity_probe positional_dict = Ok (1, 0)
  /\ resolve_and_call_spec arity_probe positional_dict = Ok (0, 1)
  /\ ~ (forall args, call_fn arity_probe args
                     = resolve_and_call_spec arity_probe args).
Proof.
  repeat split; try reflexivity.
  intros H. specialize (H doubly_marked_list). discriminate H.
Qed.

(** C4 (amended): [call_fn] takes exactly one of three branches and returns
    what the chosen invocation returns: [fn( *args )] when [expand_as_args]
    holds, that is for a non-record sequence without force-leaf and for any
    value carrying force-positional; [fn( **args )] when that fails and args
    is a mapping without force-leaf; [fn(args)] otherwise.  Force-positional
    comes first; without it the decision is the one the claim words. *)
Theorem call_fn_three_way {R} (fn : callable R) (args : pyobj) :
  ((expand_as_args args = true /\ call_fn fn args = call_star fn args)
   \/ (expand_as_args args = false /\ _expand_as_kwargs args = true
       /\ call_fn fn args = call_star_star fn args)
   \/ (expand_as_args args = false /\ _expand_as_kwargs args = false
       /\ call_fn fn args = call_plain fn args))
  /\ call_fn fn args
     = (if _force_expand_as_args args then call_star fn args
        else resolve_and_call_spec fn args).
Proof.
  split.
  - unfold call_fn.
    destruct (expand_as_args args); [left; auto |].
    destruct (_expand_as_kwargs args); [right; left; auto | right; right; auto].
  - destruct (_force_expand_as_args args) eqn:E.
    + unfold call_fn, expand_as_args. rewrite E, orb_true_r. reflexivity.
    + now apply call_fn_without_force_args.
Qed.

(** C7 (as stated, refuted): a tuple carrying force-leaf and force-positional
    is positionally expanded. *)
Lemma force_leaf_priority_counterexample :
  _force_leaf doubly_marked_tuple = true
  /\ expand_as_args doubly_marked_tuple = true
  /\ call_fn arity_probe doubly_marked_tuple
     = call_star arity_probe doubly_marked_tuple
  /\ call_fn arity_probe doubly_marked_tuple = Ok (2, 0)
  /\ call_plain arity_probe doubly_marked_tuple = Ok (1, 0).
Proof. repeat split. Qed.

(** C7 (amended): a value carrying the force-leaf marker is never keyword
    expanded, whatever its runtime kind, and it is positionally expanded
    exactly when it also carries the force-positional marker; otherwise it is
    passed as a single argument. *)
Theorem force_leaf_unless_force_args (v : pyobj) :
  _force_leaf v = true ->
  _expand_as_kwargs v = false
  /\ expand_as_args v = _force_expand_as_args v
  /\ forall R (fn : callable R),
       call_fn fn v = if _force_expand_as_args v then call_star fn v
                      else call_plain fn v.
Proof.
  intros H. unfold call_fn, _expand_as_kwargs, expand_as_args. rewrite H.
  rewrite !andb_false_r. simpl.
  split; [reflexivity | split; [reflexivity |]].
  intros R fn. destruct (_force_expand_as_args v); reflexivity.
Qed.

Lemma force_leaf_unless_force_args_witness :
  _force_leaf leaf_marked_list = true
  /\ call_fn arity_probe leaf_marked_list
     = Ok (1, 0).
Proof.
  split; [reflexivity |].
  rewrite (proj2 (proj2 (force_leaf_unless_force_args
             leaf_marked_list
             eq_refl))).
  reflexivity.
Defined.

(** C8: a namedtuple is sequence-like, yet it is never keyword expanded and
    it is positionally expanded exactly when its class carries the
    force-positional marker; without the marker [call_fn] passes it as a
    single argument. *)
Theorem namedtuple_expansion (cls : string) (m : markers)
  (fields : list (string * pyobj)) :
  let nt := NamedTuple cls m fields in
  isinstance_Sequence nt = true
  /\ _expand_as_kwargs nt = false
  /\ expand_as_args nt = has_force_args m
  /\ forall R (fn : callable R),
       call_fn fn nt = if has_force_args m then call_star fn nt
                       else call_plain fn nt.
Proof.
  simpl. unfold call_fn, expand_as_args, _expand_as_kwargs,
    _force_expand_as_args. simpl.
  split; [reflexivity | split; [reflexivity | split; [reflexivity |]]].
  intros R fn. destruct (has_force_args m); reflexivity.
Qed.

(* ================================================================== *)
(** ** The library [tf.nest] *)

(** Induction following the traversal order of [tf.nest]. *)
Lemma nest_ind (P : pyobj -> Prop)
  (Hleaf : forall x, is_nested x = false -> P x)
  (Hnode : forall x, is_nested x = true ->
                     Forall P (_yield_value x) -> P x) :
  forall x, P x.
Proof.
  induction x as [m a | k m xs IH | cls m fields IH | m items IH]
    using pyobj_rect'.
  - now apply Hleaf.
  - apply Hnode; [reflexivity |]. now rewrite yield_value_seq.
  - apply Hnode; [reflexivity |]. rewrite yield_value_namedtuple.
    now apply Forall_map.
  - apply Hnode; [reflexivity |]. rewrite yield_value_dict.
    apply Forall_map. now apply sort_items_Forall.
Qed.

Lemma well_formed_children x :
  well_formed x -> Forall well_formed (_yield_value x).
Proof.
  intros H. inversion H; subst.
  - constructor.
  - now rewrite yield_value_seq.
  - rewrite yield_value_namedtuple. now apply Forall_map.
  - rewrite yield_value_dict. apply Forall_map. now apply sort_items_Forall.
Qed.

Lemma well_formed_keys_unique x : well_formed x -> keys_unique x.
Proof. intros H. inversion H; subst; simpl; auto. Qed.

Lemma flatten_nested x :
  is_nested x = true -> flatten x = concat (map flatten (_yield_value x)).
Proof.
  intros H. rewrite <- sorted_items_with_values.
  destruct x; try discriminate H; reflexivity.
Qed.

Lemma flatten_unnested x : is_nested x = false -> flatten x = [x].
Proof. destruct x; try discriminate; reflexivity. Qed.

Lemma flatten_leaves x : Forall (fun l => is_nested l = false) (flatten x).
Proof.
  induction x as [x H | x H IH] using nest_ind.
  - rewrite flatten_unnested by assumption. now constructor.
  - rewrite flatten_nested by assumption.
    apply Forall_concat, Forall_map. exact IH.
Qed.

(** *** [_sequence_like] puts results back where the children were *)

Lemma assoc_related {A C} (R : A -> C -> Prop) (l : list (string * A)) rs :
  NoDup (map fst l) ->
  Forall2 R (map snd l) rs ->
  forall k v, In (k, v) l ->
    exists r, assoc String.eqb k (combine (map fst l) rs) = Some r /\ R v r.
Proof.
  revert rs. induction l as [| [k0 v0] l IH]; intros rs Hnd HR k v Hin.
  - destruct Hin.
  - simpl in HR. inversion HR as [| ? r0 ? rs' Hr0 HR']; subst.
    inversion Hnd as [| ? ? Hnotin Hnd']; subst. simpl.
    destruct Hin as [E | Hin].
    + inversion E; subst. rewrite String.eqb_refl. eauto.
    + destruct (String.eqb_spec k k0) as [-> | _].
      * exfalso. apply Hnotin. apply in_map_iff. exists (k0, v). auto.
      * eapply IH; eauto.
Qed.

Lemma restore_order {A C} (R : A -> C -> Prop) (table : list (string * C))
  (items part : list (string * A)) :
  (forall k v, In (k, v) items ->
     exists r, assoc String.eqb k table = Some r /\ R v r) ->
  incl part items ->
  exists part',
    rmap (fun kv => match assoc String.eqb (fst kv) table with
                    | Some v => Ok (fst kv, v)
                    | None => Raise (KeyError (Key (fst kv)))
                    end) part = Ok part'
    /\ Forall2 (fun kv kv' => fst kv = fst kv' /\ R (snd kv) (snd kv'))
               part part'.
Proof.
  intros Htable. induction part as [| [k v] part IH]; intros Hincl.
  - exists []. split; [reflexivity | constructor].
  - destruct (Htable k v) as [r [Er Hr]]; [apply Hincl; now left |].
    destruct IH as [part' [E F]];
      [intros x Hx; apply Hincl; now right |].
    exists ((k, r) :: part'). simpl. rewrite Er. simpl. rewrite E. simpl.
    split; [reflexivity |]. constructor; auto.
Qed.

Lemma sequence_like_related (R : pyobj -> pyobj -> Prop) s rs :
  is_nested s = true -> keys_unique s ->
  Forall2 R (_yield_value s) rs ->
  exists r, _sequence_like s rs = Ok r /\ node_related R s r.
Proof.
  intros Hn Hk HR.
  destruct s as [m a | k m xs | cls m fields | m items]; try discriminate Hn.
  - rewrite yield_value_seq in HR. exists (Seq k m rs). simpl. auto.
  - rewrite yield_value_namedtuple in HR.
    exists (NamedTuple cls m (combine (map fst fields) rs)). simpl.
    pose proof (Forall2_length HR) as L. rewrite length_map in L.
    rewrite <- L, Nat.eqb_refl. split; [reflexivity |].
    split; [reflexivity |]. split; [reflexivity |].
    clear L Hk Hn. revert rs HR.
    induction fields as [| [k v] fs IH]; intros rs HR;
      inversion HR; subst; simpl; constructor; auto.
  - rewrite yield_value_dict in HR. simpl in Hk. simpl.
    destruct (restore_order R
                (combine (map fst (sort_items items)) rs) items items)
      as [items' [E F]].
    + intros k v Hin.
      apply (assoc_related R (sort_items items) rs); auto.
      * now apply sort_items_NoDup.
      * now apply (proj1 (sort_items_In (k, v) items)).
    + apply incl_refl.
    + exists (Dict m items'). rewrite E. simpl. auto.
Qed.

Lemma node_related_function (g : pyobj -> pyobj) s r :
  node_related (fun c r' => r' = g c) s r -> r = tree_map_node g s.
Proof.
  destruct s as [m a | k m xs | cls m fields | m items];
    destruct r as [m' a' | k' m' xs' | cls' m' fields' | m' items'];
    simpl; try contradiction.
  - intros [-> [-> F]]. f_equal.
    induction F; simpl; congruence.
  - intros [-> [-> F]]. f_equal.
    induction F as [| [k v] [k' v'] ? ? [E1 E2]]; simpl in *; congruence.
  - intros [-> F]. f_equal.
    induction F as [| [k v] [k' v'] ? ? [E1 E2]]; simpl in *; congruence.
Qed.

Lemma sequence_like_map (g : pyobj -> pyobj) s :
  is_nested s = true -> keys_unique s ->
  _sequence_like s (map g (_yield_value s)) = Ok (tree_map_node g s).
Proof.
  intros Hn Hk.
  destruct (sequence_like_related (fun c r' => r' = g c) s
              (map g (_yield_value s)) Hn Hk) as [r [E H]].
  - induction (_yield_value s); simpl; constructor; auto.
  - rewrite E. f_equal. now apply node_related_function.
Qed.

(** *** [pack_sequence_as] inverts [flatten] *)

Lemma packed_nest_unfold s :
  _packed_nest_with_indices s
  = run_packers
      (map (fun c flat =>
              if is_nested c then
                '(child, rest) <~ _packed_nest_with_indices c flat ;;
                packed <~ _sequence_like c child ;;
                Ok (packed, rest)
              else
                match flat with
                | x :: rest => Ok (x, rest)
                | [] => Raise (ValueError "Could not pack sequence.")
                end)
           (_yield_value s)).
Proof. rewrite <- sorted_items_with_values. destruct s; reflexivity. Qed.

Lemma tree_map_nested f s :
  is_nested s = true -> tree_map f s = tree_map_node (tree_map f) s.
Proof. destruct s; try discriminate; reflexivity. Qed.

Lemma packed_nest_flatten (f : pyobj -> pyobj) s :
  well_formed s -> is_nested s = true ->
  forall rest,
    _packed_nest_with_indices s (map f (flatten s) ++ rest)
    = Ok (map (tree_map f) (_yield_value s), rest).
Proof.
  induction s as [s H | s H IH] using nest_ind; intros Hwf Hn rest.
  - congruence.
  - rewrite packed_nest_unfold, flatten_nested by assumption.
    apply well_formed_children in Hwf.
    clear H Hn. revert rest.
    induction (_yield_value s) as [| c cs IHcs]; intros rest; simpl.
    + reflexivity.
    + inversion IH as [| ? ? IHc IH']; subst.
      inversion Hwf as [| ? ? Hc Hwf']; subst.
      rewrite map_app, <- app_assoc.
      destruct (is_nested c) eqn:Ec.
      * rewrite (IHc Hc eq_refl). simpl.
        rewrite sequence_like_map
          by (auto using well_formed_keys_unique).
        simpl. rewrite (IHcs IH' Hwf'). simpl.
        now rewrite tree_map_nested.
      * rewrite flatten_unnested by assumption. simpl.
        rewrite (IHcs IH' Hwf'). simpl.
        destruct c; try discriminate Ec. reflexivity.
Qed.

Lemma map_structure_tree_map (f : pyobj -> pyobj) s :
  well_formed s -> map_structure f s = Ok (tree_map f s).
Proof.
  intros Hwf. unfold map_structure, pack_sequence_as.
  destruct (is_nested s) eqn:Hn; simpl.
  - rewrite <- (app_nil_r (map f (flatten s))).
    rewrite packed_nest_flatten by assumption. simpl.
    rewrite sequence_like_map by (auto using well_formed_keys_unique).
    now rewrite tree_map_nested.
  - rewrite flatten_unnested by assumption. simpl.
    destruct s; try discriminate Hn. reflexivity.
Qed.

Lemma yield_value_tree_map_node (g : pyobj -> pyobj) s :
  _yield_value (tree_map_node g s) = map g (_yield_value s).
Proof.
  destruct s as [m a | k m xs | cls m fields | m items]; simpl.
  - reflexivity.
  - now rewrite !yield_value_seq.
  - rewrite !yield_value_namedtuple, !map_map. reflexivity.
  - rewrite !yield_value_dict, sort_items_map, !map_map. reflexivity.
Qed.

Lemma is_nested_tree_map_node g s :
  is_nested (tree_map_node g s) = is_nested s.
Proof. destruct s; reflexivity. Qed.

(** Where [f] yields leaves, the leaves of [tree_map f s] are the images of
    the leaves of [s]. *)
Lemma flatten_tree_map (f : pyobj -> pyobj) s :
  (forall l, is_nested (f l) = false) ->
  flatten (tree_map f s) = map f (flatten s).
Proof.
  intros Hf. induction s as [s H | s H IH] using nest_ind.
  - rewrite (flatten_unnested s) by assumption.
    destruct s; try discriminate H. simpl.
    now rewrite flatten_unnested.
  - rewrite tree_map_nested by assumption.
    rewrite !flatten_nested by (now rewrite ?is_nested_tree_map_node).
    rewrite yield_value_tree_map_node, concat_map, !map_map. f_equal.
    apply map_ext_Forall. exact IH.
Qed.

Lemma tree_map_tree_map (g f : pyobj -> pyobj) s :
  (forall l, is_nested (f l) = false) ->
  tree_map g (tree_map f s) = tree_map (fun l => g (f l)) s.
Proof.
  intros Hf.
  induction s as [m a | k m xs IH | cls m fields IH | m items IH]
    using pyobj_rect'; simpl.
  - specialize (Hf (Atom m a)). destruct (f (Atom m a)); try discriminate Hf.
    reflexivity.
  - f_equal. rewrite map_map. now apply map_ext_Forall.
  - f_equal. rewrite map_map. apply map_ext_Forall.
    eapply Forall_impl; [| exact IH]. simpl. now intros ? ->.
  - f_equal. rewrite map_map. apply map_ext_Forall.
    eapply Forall_impl; [| exact IH]. simpl. now intros ? ->.
Qed.

Lemma shape_of_tree_map (f : pyobj -> pyobj) s :
  (forall l, is_nested (f l) = false) ->
  same_shape (tree_map f s) s.
Proof.
  intros Hf. unfold same_shape, shape_of. now rewrite tree_map_tree_map.
Qed.

(* ================================================================== *)
(** ** Structure broadcaster *)

Lemma broadcast_singleton T S x :
  well_formed T -> flatten S = [x] ->
  broadcast_structure T S = Ok (tree_map (fun _ => x) T).
Proof.
  intros Hwf E. unfold broadcast_structure. rewrite E.
  now apply map_structure_tree_map.
Qed.

Lemma singleton_leaf S x : flatten S = [x] -> is_nested x = false.
Proof.
  intros E. pose proof (flatten_leaves S) as H. rewrite E in H.
  now inversion H.
Qed.

(** C2: when the source flattens to exactly one leaf, [broadcast_structure]
    returns the template's Shape with that leaf at every leaf position; when
    it flattens to another number of leaves, the source comes back
    unchanged; and the docstring's example holds. *)
Theorem broadcast_structure_tiles (T S : pyobj) :
  well_formed T ->
  (length (flatten S) = 1 ->
   exists x,
     flatten S = [x]
     /\ broadcast_structure T S = Ok (tree_map (fun _ => x) T)
     /\ same_shape (tree_map (fun _ => x) T) T
     /\ flatten (tree_map (fun _ => x) T) = map (fun _ => x) (flatten T))
  /\ (length (flatten S) <> 1 -> broadcast_structure T S = Ok S)
  /\ broadcast_structure (py_list [py_str "a"; py_str "b"; py_str "c"])
       (py_str "d")
     = Ok (py_list [py_str "d"; py_str "d"; py_str "d"]).
Proof.
  intros Hwf. split; [| split].
  - intros L. destruct (flatten S) as [| x [| y l]] eqn:E; try discriminate L.
    exists x. pose proof (singleton_leaf S x E) as Hx.
    split; [reflexivity |].
    split; [now apply broadcast_singleton |].
    split; [now apply shape_of_tree_map | now apply flatten_tree_map].
  - intros L. unfold broadcast_structure.
    destruct (flatten S) as [| x [| y l]]; try reflexivity.
    now elim L.
  - reflexivity.
Qed.

(** C9: on a source that flattens to one leaf, broadcasting the result again
    onto the same template gives the same result. *)
Theorem broadcast_structure_idempotent (T S : pyobj) :
  well_formed T ->
  length (flatten S) = 1 ->
  exists R,
    broadcast_structure T S = Ok R /\ broadcast_structure T R = Ok R.
Proof.
  intros Hwf L.
  destruct (flatten S) as [| x [| y l]] eqn:E; try discriminate L.
  pose proof (singleton_leaf S x E) as Hx.
  exists (tree_map (fun _ => x) T).
  split; [now apply broadcast_singleton |].
  unfold broadcast_structure.
  rewrite flatten_tree_map by auto.
  destruct (flatten T) as [| t [| t' ts]]; simpl; try reflexivity.
  now apply map_structure_tree_map.
Qed.

(* ================================================================== *)
(** ** Recursive conversion engine *)

Section EngineProperties.

Context {B : Backend}.

(** The engine, with the conversion of the children written as
    [map_children]. *)
Lemma nested_convert_unfold struct dtype name :
  _nested_convert_to_tensor struct dtype name
  = if negb (is_none dtype) || negb (is_nested struct) then
      tf_convert_to_tensor struct dtype py_none None
    else if _maybe_convertible_to_tensor struct then
      try_except (tf_convert_to_tensor struct py_none py_none name)
        is_value_or_type_error
        (map_children (fun s => _nested_convert_to_tensor s py_none name)
           struct)
    else
      map_children (fun s => _nested_convert_to_tensor s py_none name) struct.
Proof.
  unfold map_children, mapM. rewrite <- sorted_items_with_values.
  destruct struct; reflexivity.
Qed.

Lemma mapM_cons {A C} (f : A -> M C) a l w :
  mapM f (a :: l) w
  = match f a w with
    | (Ok r, w1) =>
        match mapM f l w1 with
        | (Ok rs, w2) => (Ok (r :: rs), w2)
        | (Raise e, w2) => (Raise e, w2)
        end
    | (Raise e, w1) => (Raise e, w1)
    end.
Proof.
  unfold mapM; simpl. unfold bind.
  destruct (f a w) as [[r | e] w1]; [| reflexivity].
  destruct (sequence (map f l) w1) as [[rs | e] w2]; reflexivity.
Qed.

Lemma mapM_total {A C} (f : A -> M C) (R : A -> C -> Prop) l :
  Forall (fun a => forall w, exists r w', f a w = (Ok r, w') /\ R a r) l ->
  forall w, exists rs w', mapM f l w = (Ok rs, w') /\ Forall2 R l rs.
Proof.
  induction 1 as [| a l Ha _ IH]; intros w.
  - exists [], w. split; [reflexivity | constructor].
  - destruct (Ha w) as [r [w1 [Er Hr]]].
    destruct (IH w1) as [rs [w2 [Ers Hrs]]].
    exists (r :: rs), w2. rewrite mapM_cons, Er, Ers.
    split; [reflexivity | now constructor].
Qed.

Lemma mapM_results {A C} (f : A -> M C) l :
  forall w rs w',
    mapM f l w = (Ok rs, w') ->
    Forall2 (fun a r => exists w1 w2, f a w1 = (Ok r, w2)) l rs.
Proof.
  induction l as [| a l IH]; intros w rs w' E.
  - inversion E; subst. constructor.
  - rewrite mapM_cons in E.
    destruct (f a w) as [[r | e] w1] eqn:Er; [| discriminate E].
    destruct (mapM f l w1) as [[rs' | e] w2] eqn:Ers; [| discriminate E].
    inversion E; subst. constructor; eauto.
Qed.

Lemma mapM_ext {A C} (f g : A -> M C) l :
  Forall (fun a => forall w, f a w = g a w) l ->
  forall w, mapM f l w = mapM g l w.
Proof.
  induction 1 as [| a l Ha _ IH]; intros w; [reflexivity |].
  rewrite !mapM_cons, Ha. destruct (g a w) as [[r | e] w1]; [| reflexivity].
  now rewrite IH.
Qed.

(** C6: under a present type tag the engine is one call of the leaf
    converter on the whole value under that tag, whatever the value: it does
    not look at the value's structure and does not recurse. *)
Theorem type_tag_converts_directly (struct dtype : pyobj)
  (name : option string) :
  is_none dtype = false ->
  _nested_convert_to_tensor struct dtype name
  = tf_convert_to_tensor struct dtype py_none None.
Proof.
  intros H. rewrite nested_convert_unfold, H. reflexivity.
Qed.

(** With a concrete dtype, or on a value that is not nested, the engine
    calls the leaf converter without a name. *)
Lemma nested_convert_drops_name struct dtype name :
  is_none dtype = false \/ is_nested struct = false ->
  _nested_convert_to_tensor struct dtype name
  = tf_convert_to_tensor struct dtype py_none None.
Proof.
  intros [H | H]; rewrite nested_convert_unfold, H;
    [| rewrite orb_true_r]; reflexivity.
Qed.

End EngineProperties.

Section ShapePreservation.

Context {B : Backend}.

Lemma substructures_self s : In s (substructures s).
Proof. destruct s; simpl; auto. Qed.

Lemma substructures_child s c :
  In c (children s) -> incl (substructures c) (substructures s).
Proof.
  intros Hc x Hx.
  destruct s as [m a | k m xs | cls m fields | m items]; simpl in *.
  - contradiction.
  - right. apply in_flat_map. eauto.
  - right. apply in_map_iff in Hc. destruct Hc as [kv [<- Hkv]].
    apply in_flat_map. eauto.
  - right. apply in_map_iff in Hc. destruct Hc as [kv [<- Hkv]].
    apply in_flat_map. eauto.
Qed.

Lemma node_related_leafwise s r :
  node_related leafwise_converted s r -> leafwise_converted s r.
Proof.
  destruct s, r; simpl; try contradiction.
  - intros [-> [-> F]]. now constructor.
  - intros [-> [-> F]]. now constructor.
  - intros [-> F]. now constructor.
Qed.

Lemma leafwise_converted_shape v :
  forall r, leafwise_converted v r -> same_shape r v.
Proof.
  unfold same_shape, shape_of.
  induction v as [m a | k m xs IH | cls m fields IH | m items IH]
    using pyobj_rect'; intros r H; inversion H; subst; simpl.
  - reflexivity.
  - f_equal. match goal with F : Forall2 _ _ _ |- _ =>
      induction F as [| x y xs' rs' Hxy F' IHF] end; [reflexivity |].
    inversion IH; subst. simpl. f_equal; auto.
    apply IHF; auto. now constructor.
  - f_equal. match goal with F : Forall2 _ _ _ |- _ =>
      induction F as [| x y xs' rs' [Hk Hxy] F' IHF] end; [reflexivity |].
    inversion IH; subst. simpl. f_equal.
    + rewrite Hk. f_equal. auto.
    + apply IHF; auto. now constructor.
  - f_equal. match goal with F : Forall2 _ _ _ |- _ =>
      induction F as [| x y xs' rs' [Hk Hxy] F' IHF] end; [reflexivity |].
    inversion IH; subst. simpl. f_equal.
    + rewrite Hk. f_equal. auto.
    + apply IHF; auto. now constructor.
Qed.

(** C1 (amended): on a structure none of whose composites converts whole
    (a namedtuple without force-leaf is not tried, the attempt on any other
    composite raises a [ValueError] or [TypeError]) and whose leaves the leaf
    converter accepts, the engine returns a structure with the same Shape:
    the same containers, keys and order at every level, a tensor at every
    leaf position. *)
Theorem nested_convert_preserves_shape (v : pyobj) (name : option string) :
  well_formed v ->
  (forall s w, In s (substructures v) -> is_nested s = true ->
     _maybe_convertible_to_tensor s = true ->
     exists e w',
       convert_to_tensor_op s py_none py_none name w = (Raise e, w')
       /\ is_value_or_type_error e = true) ->
  (forall s w, In s (substructures v) -> is_nested s = false ->
     exists t w', convert_to_tensor_op s py_none py_none None w = (Ok t, w')) ->
  forall w, exists r w',
    _nested_convert_to_tensor v py_none name w = (Ok r, w')
    /\ leafwise_converted v r
    /\ same_shape r v.
Proof.
  induction v as [v Hv | v Hv IH] using nest_ind;
    intros Hwf Hwhole Hleaf w.
  - destruct (Hleaf v w (substructures_self v) Hv) as [t [w' Et]].
    exists (py_tensor t), w'.
    rewrite nested_convert_drops_name by auto.
    unfold tf_convert_to_tensor. rewrite Et.
    destruct v as [m a | | |]; try discriminate Hv.
    repeat split. constructor.
  - assert (Hchildren : forall w1, exists r w',
               map_children (fun s => _nested_convert_to_tensor s py_none name)
                 v w1 = (Ok r, w')
               /\ leafwise_converted v r).
    { intros w1.
      destruct (mapM_total
                  (fun s => _nested_convert_to_tensor s py_none name)
                  leafwise_converted (_yield_value v)) with (w := w1)
        as [rs [w2 [Ers Hrs]]].
      { pose proof (well_formed_children v Hwf) as Hwfc.
        rewrite Forall_forall in *. intros c Hc w0.
        assert (Hsub : incl (substructures c) (substructures v))
          by (apply substructures_child; now apply yield_value_In).
        destruct (IH c Hc (Hwfc c Hc)) with (w := w0)
          as [r [w' [Er [Hr _]]]]; eauto. }
      destruct (sequence_like_related leafwise_converted v rs Hv
                  (well_formed_keys_unique v Hwf) Hrs) as [r [Er Hr]].
      exists r, w2. split; [| now apply node_related_leafwise].
      unfold map_children, bind, lift. now rewrite Ers, Er. }
    rewrite nested_convert_unfold, Hv. simpl.
    destruct (_maybe_convertible_to_tensor v) eqn:Hc.
    + destruct (Hwhole v w (substructures_self v) Hv Hc)
        as [e [w1 [Ee He]]].
      destruct (Hchildren w1) as [r [w' [Er Hr]]].
      exists r, w'. unfold try_except, tf_convert_to_tensor.
      rewrite Ee, He. split; [exact Er |].
      split; [exact Hr | now apply leafwise_converted_shape].
    + destruct (Hchildren w) as [r [w' [Er Hr]]].
      exists r, w'. split; [exact Er |].
      split; [exact Hr | now apply leafwise_converted_shape].
Qed.

End ShapePreservation.

(* ================================================================== *)
(** ** [map_structure_up_to] on a shallow structure *)

Lemma seq_kind_eqb_refl k : seq_kind_eqb k k = true.
Proof. destruct k; reflexivity. Qed.

Lemma markers_eqb_refl m : markers_eqb m m = true.
Proof. destruct m as [[] []]; reflexivity. Qed.

Lemma list_eqb_string_refl l : list_eqb String.eqb l l = true.
Proof.
  unfold list_eqb. rewrite Nat.eqb_refl. simpl.
  induction l as [| a l IH]; simpl; [reflexivity |].
  now rewrite String.eqb_refl.
Qed.

Lemma keys_subset_refl (l : list string) :
  forallb (fun k => existsb (String.eqb k) l) l = true.
Proof.
  apply forallb_forall. intros k Hk. apply existsb_exists.
  exists k. split; [exact Hk | apply String.eqb_refl].
Qed.

Lemma path_key_eqb_eq a b : path_key_eqb a b = true <-> a = b.
Proof.
  destruct a, b; simpl; split; intros H; try discriminate;
    try (apply Nat.eqb_eq in H; congruence);
    try (apply String.eqb_eq in H; congruence);
    inversion H; subst; auto using Nat.eqb_refl, String.eqb_refl.
Qed.

Lemma assoc_NoDup_In {A} (l : list (path_key * A)) k v :
  NoDup (map fst l) -> In (k, v) l -> assoc path_key_eqb k l = Some v.
Proof.
  induction l as [| [k0 v0] l IH]; intros Hnd Hin; [destruct Hin |].
  inversion Hnd as [| ? ? Hnotin Hnd']; subst. simpl.
  destruct Hin as [E | Hin].
  - inversion E; subst.
    now rewrite (proj2 (path_key_eqb_eq k k) eq_refl).
  - destruct (path_key_eqb k k0) eqn:E.
    + apply path_key_eqb_eq in E. subst. exfalso. apply Hnotin.
      apply in_map_iff. exists (k0, v). auto.
    + auto.
Qed.

Lemma enumerate_from_keys {A} i (l : list A) :
  map fst (enumerate_from i l) = map Index (seq i (length l)).
Proof.
  revert i. induction l as [| a l IH]; intros i; simpl; [reflexivity |].
  now rewrite IH.
Qed.

Lemma NoDup_map_injective {A C} (f : A -> C) l :
  (forall x y, f x = f y -> x = y) -> NoDup l -> NoDup (map f l).
Proof.
  intros Hinj. induction 1 as [| a l Hnotin _ IH]; simpl; constructor; auto.
  intros Hin. apply in_map_iff in Hin. destruct Hin as [x [E Hx]].
  apply Hinj in E. now subst.
Qed.

Lemma sorted_keys_NoDup s :
  keys_unique s -> NoDup (map fst (_yield_sorted_items s)).
Proof.
  destruct s as [m a | k m xs | cls m fields | m items];
    unfold _yield_sorted_items; simpl; intros H.
  - constructor.
  - rewrite enumerate_from_keys. apply NoDup_map_injective.
    + now intros x y [= ->].
    + apply seq_NoDup.
  - rewrite map_map. simpl. rewrite <- (map_map fst Key).
    apply NoDup_map_injective; [now intros x y [= ->] | exact H].
  - rewrite map_map. simpl. rewrite <- (map_map fst Key).
    apply NoDup_map_injective; [now intros x y [= ->] |].
    rewrite (sort_items_map (fun c => c)), map_map. simpl.
    now apply sort_items_NoDup.
Qed.

Lemma yield_sorted_items_tree_map_node (g : pyobj -> pyobj) s :
  _yield_sorted_items (tree_map_node g s)
  = map (fun kc => (fst kc, g (snd kc))) (_yield_sorted_items s).
Proof.
  destruct s as [m a | k m xs | cls m fields | m items];
    unfold _yield_sorted_items; simpl.
  - reflexivity.
  - rewrite !map_id. apply enumerate_from_map.
  - rewrite !map_map. reflexivity.
  - rewrite !(sort_items_map (fun c => c)), sort_items_map, !map_map.
    reflexivity.
Qed.

Lemma rmap_map {A C D} (g : A -> C) (h : C -> result D) (l : list A) :
  rmap h (map g l) = rmap (fun a => h (g a)) l.
Proof.
  induction l as [| a l IH]; simpl; [reflexivity |]. now rewrite IH.
Qed.

Lemma assert_shallow_unfold check_types shallow_tree input_tree :
  assert_shallow_structure check_types shallow_tree input_tree
  = if is_nested shallow_tree then
      if negb (is_nested input_tree) then
        Raise (TypeError
          "If shallow structure is a sequence, input must also be a sequence.")
      else if check_types
              && negb (isinstance_of_type input_tree shallow_tree)
              && negb (_same_namedtuples shallow_tree input_tree
                       || (isinstance_Mapping shallow_tree
                           && isinstance_Mapping input_tree)) then
        Raise (TypeError "The two structures don't have the same sequence type.")
      else if negb (Nat.eqb (_num_elements input_tree)
                            (_num_elements shallow_tree)) then
        Raise (ValueError
          "The two structures don't have the same sequence length.")
      else if isinstance_Mapping shallow_tree
              && negb (forallb
                         (fun k => existsb (String.eqb k)
                                     (str_elements input_tree))
                         (str_elements shallow_tree)) then
        Raise (ValueError
          "The shallow_tree's keys are not a subset of the input_tree's keys.")
      else
        run_checks
          (map (assert_shallow_structure check_types)
             (_yield_value shallow_tree))
          (_yield_value input_tree)
    else Ok tt.
Proof.
  rewrite <- sorted_items_with_values. destruct shallow_tree; reflexivity.
Qed.

Lemma yield_flat_up_to_unfold shallow_tree input_tree p :
  _yield_flat_up_to shallow_tree input_tree p
  = if negb (is_nested shallow_tree) then Ok [(p, input_tree)]
    else
      parts <~ rmap
                 (fun sub : path_key * pyobj =>
                    match assoc path_key_eqb (fst sub)
                            (_yield_sorted_items input_tree) with
                    | Some input_subtree =>
                        _yield_flat_up_to (snd sub) input_subtree
                          (p ++ [fst sub])
                    | None => Raise (KeyError (fst sub))
                    end)
                 (_yield_sorted_items shallow_tree) ;;
      Ok (concat parts).
Proof.
  destruct (is_nested shallow_tree) eqn:Hn; simpl.
  - rewrite <- (rmap_map
                   (fun kc : path_key * pyobj =>
                      (fst kc, _yield_flat_up_to (snd kc)))
                   (fun sub : path_key * (pyobj -> path ->
                                          result (list (path * pyobj))) =>
                      match assoc path_key_eqb (fst sub)
                              (_yield_sorted_items input_tree) with
                      | Some input_subtree =>
                          snd sub input_subtree (p ++ [fst sub])
                      | None => Raise (KeyError (fst sub))
                      end)).
    rewrite <- sorted_items_with_map.
    destruct shallow_tree; try discriminate Hn; reflexivity.
  - destruct shallow_tree; try discriminate Hn; reflexivity.
Qed.

Lemma traverse_nothing c :
  get_traverse_shallow_structure (fun s_is_struct _ => s_is_struct) false c
  = Ok py_false.
Proof. destruct c; reflexivity. Qed.

(** The shallow structure of [struct]: its container with every child
    replaced by [False]; [True] when [struct] is not nested. *)
Lemma get_shallow_structure_unfold struct :
  _get_shallow_structure struct
  = if is_nested struct then
      _sequence_like struct (map (fun _ => py_false) (_yield_value struct))
    else Ok py_true.
Proof.
  assert (E : forall cs : list pyobj,
            rmap (fun branch : result pyobj => branch)
                 (map (get_traverse_shallow_structure
                         (fun s_is_struct _ => s_is_struct) false) cs)
            = Ok (map (fun _ => py_false) cs)).
  { induction cs as [| c cs IH]; simpl; [reflexivity |].
    rewrite traverse_nothing. simpl. now rewrite IH. }
  destruct (is_nested struct) eqn:Hn.
  - transitivity
      (level_traverse <~
         rmap (fun branch : result pyobj => branch)
           (map (get_traverse_shallow_structure
                   (fun s_is_struct _ => s_is_struct) false)
              (_yield_value struct)) ;;
       _sequence_like struct level_traverse).
    + rewrite <- sorted_items_with_values.
      destruct struct; try discriminate Hn; reflexivity.
    + rewrite E. reflexivity.
  - destruct struct; try discriminate Hn; reflexivity.
Qed.

Lemma get_shallow_structure_nested s :
  is_nested s = true -> keys_unique s ->
  _get_shallow_structure s = Ok (shallow_of s).
Proof.
  intros Hn Hk. rewrite get_shallow_structure_unfold, Hn.
  now apply sequence_like_map.
Qed.

Lemma run_checks_trivial (cs : list pyobj) check inputs :
  (forall i, check i = Ok tt) ->
  run_checks (map (fun _ => check) cs) inputs = Ok tt.
Proof.
  intros H. revert inputs.
  induction cs as [| c cs IH]; intros [| i inputs]; simpl; try reflexivity.
  rewrite H. simpl. apply IH.
Qed.

Lemma assert_shallow_of check_types s :
  is_nested s = true ->
  assert_shallow_structure check_types (shallow_of s) s = Ok tt.
Proof.
  intros Hn. rewrite assert_shallow_unfold. unfold shallow_of.
  rewrite is_nested_tree_map_node, Hn. simpl.
  replace (isinstance_of_type s (tree_map_node (fun _ => py_false) s))
    with true.
  2: { destruct s as [m a | k m xs | cls m fields | m items];
       try discriminate Hn; unfold isinstance_of_type; simpl;
       rewrite ?seq_kind_eqb_refl, ?markers_eqb_refl, ?String.eqb_refl,
         ?map_map; simpl; rewrite ?list_eqb_string_refl; reflexivity. }
  rewrite andb_false_r.
  rewrite <- !yield_value_length, yield_value_tree_map_node, length_map,
    Nat.eqb_refl. simpl.
  replace (isinstance_Mapping (tree_map_node (fun _ => py_false) s)
           && negb (forallb
                      (fun k => existsb (String.eqb k) (str_elements s))
                      (str_elements (tree_map_node (fun _ => py_false) s))))
    with false.
  2: { destruct s as [m a | k m xs | cls m fields | m items];
       try discriminate Hn; try reflexivity.
       simpl. rewrite map_map. simpl. now rewrite keys_subset_refl. }
  rewrite map_map. now apply run_checks_trivial.
Qed.

Lemma yield_flat_up_to_shallow_of s p :
  is_nested s = true -> keys_unique s ->
  _yield_flat_up_to (shallow_of s) s p
  = Ok (map (fun kc => (p ++ [fst kc], snd kc)) (_yield_sorted_items s)).
Proof.
  intros Hn Hk. rewrite yield_flat_up_to_unfold. unfold shallow_of.
  rewrite is_nested_tree_map_node, Hn. simpl.
  rewrite yield_sorted_items_tree_map_node.
  pose proof (sorted_keys_NoDup s Hk) as Hnd.
  assert (E : forall part, incl part (_yield_sorted_items s) ->
            rmap (fun sub : path_key * pyobj =>
                    match assoc path_key_eqb (fst sub)
                            (_yield_sorted_items s) with
                    | Some input_subtree =>
                        _yield_flat_up_to (snd sub) input_subtree
                          (p ++ [fst sub])
                    | None => Raise (KeyError (fst sub))
                    end)
                 (map (fun kc => (fst kc, py_false)) part)
            = Ok (map (fun kc => [(p ++ [fst kc], snd kc)]) part)).
  { induction part as [| [k c] part IH]; intros Hincl; [reflexivity |].
    simpl. rewrite (assoc_NoDup_In _ k c Hnd) by (apply Hincl; now left).
    simpl. rewrite IH by (intros x Hx; apply Hincl; now right).
    reflexivity. }
  rewrite E by apply incl_refl. simpl. f_equal. clear E Hnd.
  induction (_yield_sorted_items s) as [| a l IH]; simpl; [reflexivity |].
  now rewrite IH.
Qed.

Lemma flatten_up_to_shallow_of s check_types :
  is_nested s = true -> keys_unique s ->
  flatten_up_to (shallow_of s) s check_types = Ok (_yield_value s).
Proof.
  intros Hn Hk. unfold flatten_up_to.
  rewrite assert_shallow_of by assumption. simpl.
  rewrite (yield_flat_up_to_shallow_of s []) by assumption. simpl.
  rewrite map_map. reflexivity.
Qed.

Lemma sequence_like_shallow_of s rs :
  _sequence_like (shallow_of s) rs = _sequence_like s rs.
Proof.
  destruct s as [m a | k m xs | cls m fields | m items]; simpl;
    try reflexivity.
  - now rewrite length_map, map_map.
  - rewrite (sort_items_map (fun _ : pyobj => py_false)), !map_map. simpl.
    set (table := combine (map fst (sort_items items)) rs).
    assert (E : forall part : list (string * pyobj),
              rmap (fun kv : string * pyobj =>
                      match assoc String.eqb (fst kv) table with
                      | Some v => Ok (fst kv, v)
                      | None => Raise (KeyError (Key (fst kv)))
                      end)
                   (map (fun kv => (fst kv, py_false)) part)
              = rmap (fun kv : string * pyobj =>
                        match assoc String.eqb (fst kv) table with
                        | Some v => Ok (fst kv, v)
                        | None => Raise (KeyError (Key (fst kv)))
                        end) part).
    { induction part as [| a l IH]; simpl; [reflexivity |]. now rewrite IH. }
    now rewrite E.
Qed.

Lemma pack_shallow_of s rs :
  is_nested s = true -> length rs = length (_yield_value s) ->
  pack_sequence_as (shallow_of s) rs = _sequence_like s rs.
Proof.
  intros Hn L. unfold pack_sequence_as, shallow_of.
  rewrite is_nested_tree_map_node, Hn. simpl.
  rewrite packed_nest_unfold, yield_value_tree_map_node, map_map.
  assert (E : forall cs rs', length rs' = length cs ->
            run_packers
              (map (fun _ : pyobj => fun flat : list pyobj =>
                      if is_nested py_false then
                        '(child, rest) <~
                           _packed_nest_with_indices py_false flat ;;
                        packed <~ _sequence_like py_false child ;;
                        Ok (packed, rest)
                      else
                        match flat with
                        | x :: rest => Ok (x, rest)
                        | [] => Raise (ValueError "Could not pack sequence.")
                        end) cs) rs'
            = Ok (rs', [])).
  { induction cs as [| c cs IH]; intros [| r rs'] L'; try discriminate L';
      simpl; [reflexivity |].
    rewrite IH by (simpl in L'; congruence). reflexivity. }
  rewrite E by assumption. simpl.
  apply sequence_like_shallow_of.
Qed.

Lemma zip_with_paths_single (parts : list (path * pyobj)) :
  zip_with_paths (map fst parts) [map snd parts]
  = map (fun pc => (fst pc, [snd pc])) parts.
Proof.
  unfold zip_with_paths. simpl.
  induction parts as [| [p c] parts IH]; simpl; [reflexivity |].
  now rewrite IH.
Qed.

Lemma zip_with_paths_root (inputs : list pyobj) :
  zip_with_paths [[]] (map (fun i => [i]) inputs) = [([], inputs)].
Proof.
  induction inputs as [| i inputs IH]; [reflexivity |].
  unfold zip_with_paths in *. simpl in *. now rewrite IH.
Qed.

Section UpTo.

Context {B : Backend}.

Lemma mapM_length {A C} (f : A -> M C) l w rs w' :
  mapM f l w = (Ok rs, w') -> length rs = length l.
Proof.
  intros E. apply mapM_results in E. symmetry. eapply Forall2_length; eauto.
Qed.

(** On the shallow structure of [s], [map_structure_up_to] converts the
    immediate children of [s] in traversal order and rebuilds the container
    of [s]. *)
Lemma map_structure_up_to_shallow (f : pyobj -> M pyobj) s w :
  is_nested s = true -> keys_unique s ->
  bind (lift (_get_shallow_structure s))
       (fun shallow => map_structure_up_to shallow (lambda1 f) [s]) w
  = map_children f s w.
Proof.
  intros Hn Hk. unfold bind at 1, lift at 1.
  rewrite get_shallow_structure_nested by assumption.
  unfold map_structure_up_to, map_structure_with_tuple_paths_up_to.
  unfold bind at 1, lift at 1. simpl.
  rewrite assert_shallow_of by assumption. simpl.
  unfold bind at 1, lift at 1.
  rewrite flatten_up_to_shallow_of by assumption. simpl.
  unfold bind at 1, lift at 1.
  rewrite yield_flat_up_to_shallow_of by assumption. simpl.
  set (parts := map (fun kc : path_key * pyobj => ([fst kc], snd kc))
                    (_yield_sorted_items s)).
  assert (Ev : _yield_value s = map snd parts).
  { unfold parts, _yield_value. rewrite map_map. reflexivity. }
  rewrite Ev.
  change (map (fun xa : pyobj * (path * list pyobj) =>
                 (fst (snd xa), fst xa :: snd (snd xa)))
              (combine (map snd parts)
                 (map (fun p : path => (p, [])) (map fst parts))))
    with (zip_with_paths (map fst parts) [map snd parts]).
  rewrite zip_with_paths_single.
  unfold map_children, bind. rewrite Ev.
  assert (Em : forall w0,
            mapM (fun args : path * list pyobj => lambda1 f (snd args))
                 (map (fun pc : path * pyobj => (fst pc, [snd pc])) parts) w0
            = mapM f (map snd parts) w0).
  { intros w0. unfold mapM. rewrite !map_map. reflexivity. }
  rewrite Em.
  destruct (mapM f (map snd parts) w) as [[rs | e] w'] eqn:E;
    [| reflexivity].
  unfold lift. rewrite pack_shallow_of; [reflexivity | assumption |].
  rewrite Ev. eapply mapM_length; eauto.
Qed.

(** On a shallow structure that is not nested, the function is applied once,
    to the inputs themselves. *)
Lemma map_structure_up_to_unnested shallow func input0 inputs check_types w :
  is_nested shallow = false ->
  map_structure_with_tuple_paths_up_to shallow func (input0 :: inputs)
    check_types w
  = func [] (input0 :: inputs) w.
Proof.
  intros Hn. unfold map_structure_with_tuple_paths_up_to.
  assert (Ea : forall l, rmap (assert_shallow_structure check_types shallow) l
                         = Ok (map (fun _ => tt) l)).
  { induction l as [| a l IH]; simpl; [reflexivity |].
    rewrite assert_shallow_unfold, Hn. simpl. now rewrite IH. }
  assert (Ef : forall l,
             rmap (fun input_tree =>
                     flatten_up_to shallow input_tree check_types) l
             = Ok (map (fun i => [i]) l)).
  { induction l as [| a l IH]; simpl; [reflexivity |].
    unfold flatten_up_to at 1.
    rewrite assert_shallow_unfold, yield_flat_up_to_unfold, Hn. simpl.
    now rewrite IH. }
  unfold bind at 1, lift at 1. rewrite Ea.
  unfold bind at 1, lift at 1. rewrite Ef.
  unfold bind at 1, lift at 1. rewrite yield_flat_up_to_unfold, Hn. simpl.
  rewrite (zip_with_paths_root inputs). simpl.
  unfold bind. rewrite mapM_cons. simpl.
  destruct (func [] (input0 :: inputs) w) as [[r | e] w']; [| reflexivity].
  unfold mapM, sequence, ret, lift, pack_sequence_as. simpl.
  now rewrite Hn.
Qed.

(** The children step of the engine is the source's
    [nest.map_structure_up_to(shallow_struct, lambda s: ..., struct)]. *)
Lemma nested_convert_children_up_to struct name w :
  is_nested struct = true -> keys_unique struct ->
  bind (lift (_get_shallow_structure struct))
       (fun shallow_struct =>
          map_structure_up_to shallow_struct
            (lambda1 (fun s => _nested_convert_to_tensor s py_none name))
            [struct]) w
  = map_children (fun s => _nested_convert_to_tensor s py_none name) struct w.
Proof. apply map_structure_up_to_shallow. Qed.

(** C3: when the whole-structure attempt on a composite raises, a
    [ValueError] or [TypeError] is dropped and the engine goes on once, from
    the world the attempt left, with the source's fallback: the shallow
    structure of the composite is built and [map_structure_up_to] converts
    each immediate child with the engine and puts the results back into the
    container.  Any other exception leaves the engine as it was raised.
    When the children then convert, so does the composite: to the same
    container with, at each place, a conversion of the child there. *)
Theorem fallback_on_conversion_error (struct : pyobj) (name : option string)
  (w w' : world) (e : exn) :
  is_nested struct = true ->
  keys_unique struct ->
  _maybe_convertible_to_tensor struct = true ->
  tf_convert_to_tensor struct py_none py_none name w = (Raise e, w') ->
  (is_value_or_type_error e = true ->
   _nested_convert_to_tensor struct py_none name w
   = bind (lift (_get_shallow_structure struct))
       (fun shallow_struct =>
          map_structure_up_to shallow_struct
            (lambda1 (fun s => _nested_convert_to_tensor s py_none name))
            [struct]) w'
   /\ _nested_convert_to_tensor struct py_none name w
      = map_children (fun s => _nested_convert_to_tensor s py_none name)
          struct w')
  /\ (is_value_or_type_error e = false ->
      _nested_convert_to_tensor struct py_none name w = (Raise e, w'))
  /\ (is_value_or_type_error e = true ->
      forall rs w'',
        mapM (fun s => _nested_convert_to_tensor s py_none name)
          (_yield_value struct) w' = (Ok rs, w'') ->
        exists r,
          _nested_convert_to_tensor struct py_none name w = (Ok r, w'')
          /\ node_related
               (fun c r' => exists w1 w2,
                    _nested_convert_to_tensor c py_none name w1 = (Ok r', w2))
               struct r).
Proof.
  intros Hn Hk Hc Hw.
  assert (Hstep : _nested_convert_to_tensor struct py_none name w
                  = if is_value_or_type_error e
                    then map_children
                           (fun s => _nested_convert_to_tensor s py_none name)
                           struct w'
                    else (Raise e, w')).
  { rewrite nested_convert_unfold, Hn, Hc. simpl.
    unfold try_except. rewrite Hw. reflexivity. }
  split; [| split].
  - intros He. rewrite nested_convert_children_up_to by assumption.
    now rewrite Hstep, He.
  - intros He. now rewrite Hstep, He.
  - intros He rs w'' Hrs. rewrite Hstep, He.
    destruct (sequence_like_related
                (fun c r' => exists w1 w2,
                     _nested_convert_to_tensor c py_none name w1 = (Ok r', w2))
                struct rs Hn Hk) as [r [Er Hr]].
    { eapply mapM_results. exact Hrs. }
    exists r. split; [| exact Hr].
    unfold map_children, bind, lift. now rewrite Hrs, Er.
Qed.

End UpTo.

(* ================================================================== *)
(** ** [convert_args_to_tensor] and the name argument *)

Section NameArgument.

Context {B : Backend}.

Lemma up_to_ext shallow (func func' : path -> list pyobj -> M pyobj)
  inputs check_types :
  (forall p args w, func p args w = func' p args w) ->
  forall w,
    map_structure_with_tuple_paths_up_to shallow func inputs check_types w
    = map_structure_with_tuple_paths_up_to shallow func' inputs check_types w.
Proof.
  intros H w. unfold map_structure_with_tuple_paths_up_to.
  destruct inputs as [| input0 inputs]; [reflexivity |].
  unfold bind, lift.
  destruct (rmap (assert_shallow_structure check_types shallow)
              (input0 :: inputs)); [| reflexivity].
  destruct (rmap (fun input_tree =>
                    flatten_up_to shallow input_tree check_types)
              (input0 :: inputs)); [| reflexivity].
  destruct (_yield_flat_up_to shallow input0 []); [| reflexivity].
  rewrite (mapM_ext (fun args => func (fst args) (snd args))
             (fun args => func' (fst args) (snd args))).
  - reflexivity.
  - apply Forall_forall. intros x _ w0. apply H.
Qed.

Lemma map_children_ext (f g : pyobj -> M pyobj) s :
  Forall (fun c => forall w, f c w = g c w) (_yield_value s) ->
  forall w, map_children f s w = map_children g s w.
Proof.
  intros H w. unfold map_children, bind. now rewrite (mapM_ext f g).
Qed.

(** Where the leaf converter does not look at the name it is given with a
    nested value and no dtype, the engine does not depend on the name. *)
Lemma nested_convert_name_irrelevant :
  (forall v n w, is_nested v = true ->
     convert_to_tensor_op v py_none py_none n w
     = convert_to_tensor_op v py_none py_none None w) ->
  forall struct dtype name w,
    _nested_convert_to_tensor struct dtype name w
    = _nested_convert_to_tensor struct dtype None w.
Proof.
  intros Hop struct.
  induction struct as [s Hs | s Hs IH] using nest_ind; intros dtype name w.
  - rewrite !nested_convert_drops_name by auto. reflexivity.
  - rewrite !(nested_convert_unfold s dtype).
    destruct (negb (is_none dtype) || negb (is_nested s)); [reflexivity |].
    assert (Hc : forall w0,
               map_children
                 (fun c => _nested_convert_to_tensor c py_none name) s w0
               = map_children
                   (fun c => _nested_convert_to_tensor c py_none None) s w0).
    { apply map_children_ext. eapply Forall_impl; [| exact IH].
      intros c Hc w0. apply Hc. }
    destruct (_maybe_convertible_to_tensor s); [| apply Hc].
    unfold try_except, tf_convert_to_tensor.
    rewrite (Hop s name w Hs).
    destruct (convert_to_tensor_op s py_none py_none None w)
      as [[t | e] w1]; [reflexivity |].
    destruct (is_value_or_type_error e); [apply Hc | reflexivity].
Qed.

(** C10: the name reaches the leaf converter only in whole-structure
    attempts on nested composites.  With a concrete dtype, or on a value that
    is not nested, the engine and [convert_args_to_tensor] call the leaf
    converter without a name, whatever name was supplied; and where the leaf
    converter ignores the name in whole-structure attempts on nested values,
    neither function depends on the name at all. *)
Theorem name_only_in_whole_structure_attempts :
  (forall struct dtype name,
     is_none dtype = false \/ is_nested struct = false ->
     _nested_convert_to_tensor struct dtype name
     = tf_convert_to_tensor struct dtype py_none None)
  /\ (forall args dtype name w,
        is_nested dtype = false -> is_none dtype = false ->
        convert_args_to_tensor args dtype name w
        = tf_convert_to_tensor args dtype py_none None w)
  /\ (forall args name w,
        is_nested args = false ->
        convert_args_to_tensor args py_none name w
        = tf_convert_to_tensor args py_none py_none None w)
  /\ ((forall v n w, is_nested v = true ->
         convert_to_tensor_op v py_none py_none n w
         = convert_to_tensor_op v py_none py_none None w) ->
      forall args dtype name w,
        _nested_convert_to_tensor args dtype name w
        = _nested_convert_to_tensor args dtype None w
        /\ convert_args_to_tensor args dtype name w
           = convert_args_to_tensor args dtype None w).
Proof.
  split; [exact nested_convert_drops_name | split; [| split]].
  - intros args dtype name w Hd Hnone. unfold convert_args_to_tensor.
    rewrite Hnone. unfold map_structure_up_to.
    rewrite map_structure_up_to_unnested by assumption. simpl.
    now rewrite nested_convert_drops_name by auto.
  - intros args name w Hargs. unfold convert_args_to_tensor.
    change (is_none py_none) with true. cbv iota.
    rewrite <- (nested_convert_drops_name args py_none name) by auto.
    destruct (expand_as_args args || _expand_as_kwargs args);
      [| reflexivity].
    unfold bind, lift. rewrite get_shallow_structure_unfold, Hargs.
    unfold map_structure_up_to.
    now rewrite map_structure_up_to_unnested by reflexivity.
  - intros Hop args dtype name w.
    split; [now apply nested_convert_name_irrelevant |].
    unfold convert_args_to_tensor.
    destruct (is_none dtype).
    + destruct (expand_as_args args || _expand_as_kwargs args).
      * unfold bind, lift.
        destruct (_get_shallow_structure args); [| reflexivity].
        apply up_to_ext. intros p [| s [| s' l]] w0; try reflexivity.
        simpl. now apply nested_convert_name_irrelevant.
      * now apply nested_convert_name_irrelevant.
    + apply up_to_ext. intros p [| s [| d [| x l]]] w0; try reflexivity.
      simpl. now apply nested_convert_name_irrelevant.
Qed.

End NameArgument.

(* ================================================================== *)
(** ** Structured conversion orchestrator *)

Section Orchestrator.

Context {B : Backend}.

(** C5 (amended): for a nested value that holds a tensor or an array, the
    per-leaf conversion with packing disallowed raises the implicit-stack
    error, which carries the value and its path, and calls nothing; with
    packing allowed the guard is skipped and the outcome is the leaf
    converter's on the whole value: one stacked tensor when the converter
    accepts the value, its error otherwise.  With dtype and hint not nested
    the top-level call is that per-leaf conversion at the empty path. *)
Theorem implicit_stack_guard (p : path) (value dtype dtype_hint : pyobj)
  (name : option string) (w : world) :
  is_nested value = true ->
  existsb (fun x => tf_is_tensor x || isinstance_ndarray x) (flatten value)
  = true ->
  convert_fn false p value dtype dtype_hint name w
  = (Raise (NotImplementedError implicit_stack_message value p), w)
  /\ convert_fn true p value dtype dtype_hint name w
     = tf_convert_to_tensor value dtype dtype_hint name w
  /\ (forall t w',
        convert_to_tensor_op value dtype dtype_hint name w = (Ok t, w') ->
        convert_fn true p value dtype dtype_hint name w
        = (Ok (py_tensor t), w'))
  /\ (is_nested dtype = false -> is_nested dtype_hint = false ->
      forall allow_packing,
        convert_to_nested_tensor value dtype dtype_hint allow_packing name w
        = convert_fn allow_packing [] value dtype dtype_hint name w).
Proof.
  intros Hn Ht. split; [| split; [| split]].
  - unfold convert_fn. now rewrite Hn, Ht.
  - reflexivity.
  - intros t w' E. unfold convert_fn, tf_convert_to_tensor. simpl.
    now rewrite E.
  - intros Hd Hh allow_packing. unfold convert_to_nested_tensor.
    rewrite Hd, Hh. unfold bind, lift. simpl. now rewrite Hd.
Qed.

End Orchestrator.

(* ================================================================== *)
(** ** The properties on concrete inputs *)

Ltac prove_well_formed :=
  repeat first
    [ apply wf_atom | apply wf_seq | apply wf_namedtuple | apply wf_dict
    | apply Forall_nil | apply Forall_cons | apply NoDup_nil
    | apply NoDup_cons; [simpl; intuition discriminate |]
    | progress simpl ].

Lemma well_formed_example_template : well_formed example_template.
Proof. unfold example_template, py_dict, py_list. prove_well_formed. Defined.

(** C1 (as stated, refuted): a list of two integers converts whole to one
    tensor, which does not have the Shape of the list. *)
Lemma shape_preservation_counterexample :
  @_nested_convert_to_tensor reference_backend int_pair py_none None []
  = (Ok (py_tensor vector_2), [Converted int_pair py_none py_none None])
  /\ ~ same_shape (py_tensor vector_2) int_pair.
Proof. split; [reflexivity | intros H; discriminate H]. Qed.

Lemma nested_convert_preserves_shape_witness :
  exists r w',
    @_nested_convert_to_tensor reference_backend scalar_dict py_none None []
    = (Ok r, w')
    /\ leafwise_converted scalar_dict r
    /\ same_shape r scalar_dict.
Proof.
  apply (@nested_convert_preserves_shape reference_backend scalar_dict None).
  - unfold scalar_dict, py_dict. prove_well_formed.
  - intros s w Hin Hn Hc. simpl in Hin.
    destruct Hin as [<- | [<- | [<- | []]]]; try discriminate Hn.
    eexists _, _. split; reflexivity.
  - intros s w Hin Hn. simpl in Hin.
    destruct Hin as [<- | [<- | [<- | []]]]; try discriminate Hn;
      eexists _, _; reflexivity.
Defined.

Lemma broadcast_structure_tiles_witness :
  well_formed example_template
  /\ broadcast_structure example_template (py_list [py_str "d"])
     = Ok (py_dict [("b", py_str "d");
                    ("a", py_list [py_str "d"; py_str "d"])])
  /\ broadcast_structure example_template int_pair = Ok int_pair.
Proof.
  split; [exact well_formed_example_template |].
  destruct (broadcast_structure_tiles example_template (py_list [py_str "d"])
              well_formed_example_template) as [Hone _].
  destruct (broadcast_structure_tiles example_template int_pair
              well_formed_example_template) as [_ [Hmany _]].
  split.
  - destruct (Hone eq_refl) as [x [Ex [Eb _]]].
    injection Ex as <-. exact Eb.
  - apply Hmany. simpl. discriminate.
Defined.

Lemma broadcast_structure_idempotent_witness :
  exists R,
    broadcast_structure example_template (py_list [py_str "d"]) = Ok R
    /\ broadcast_structure example_template R = Ok R.
Proof.
  apply (broadcast_structure_idempotent example_template
           (py_list [py_str "d"]) well_formed_example_template eq_refl).
Defined.

Lemma fallback_on_conversion_error_witness :
  @_nested_convert_to_tensor reference_backend ragged_list py_none None []
  = @map_children reference_backend
      (fun s => _nested_convert_to_tensor s py_none None) ragged_list
      [Converted ragged_list py_none py_none None].
Proof.
  apply (proj1 (@fallback_on_conversion_error reference_backend ragged_list
                  None [] [Converted ragged_list py_none py_none None]
                  (ValueError
                     "Can't convert non-rectangular Python sequence to Tensor.")
                  eq_refl I eq_refl eq_refl)).
  reflexivity.
Defined.

Lemma type_tag_converts_directly_witness :
  @_nested_convert_to_tensor reference_backend int_pair (py_dtype "float32")
    (Some "x") []
  = (Ok (py_tensor (Tensor "float32" (Arr [Num 1; Num 2]))),
     [Converted int_pair (py_dtype "float32") py_none None]).
Proof.
  rewrite (@type_tag_converts_directly reference_backend int_pair
             (py_dtype "float32") (Some "x") eq_refl).
  reflexivity.
Defined.

(** C5 (as stated, refuted): two tensors of different shapes form a nested
    value holding tensors, and with packing allowed the call does not
    succeed: the leaf converter rejects the value. *)
Lemma implicit_stack_counterexample :
  is_nested ragged_tensors = true
  /\ existsb (fun x => tf_is_tensor x || isinstance_ndarray x)
       (flatten ragged_tensors) = true
  /\ @convert_to_nested_tensor reference_backend ragged_tensors py_none
       py_none true None []
     = (Raise (ValueError
                 "Can't convert non-rectangular Python sequence to Tensor."),
        [Converted ragged_tensors py_none py_none None]).
Proof. repeat split. Qed.

Lemma implicit_stack_guard_witness :
  @convert_to_nested_tensor reference_backend stackable_tensors py_none
    py_none false None []
  = (Raise (NotImplementedError implicit_stack_message stackable_tensors []),
     [])
  /\ @convert_to_nested_tensor reference_backend stackable_tensors py_none
       py_none true None []
     = (Ok (py_tensor (Tensor "int32"
                         (Arr [Arr [Num 1; Num 2]; Arr [Num 1; Num 2]]))),
        [Converted stackable_tensors py_none py_none None]).
Proof.
  destruct (@implicit_stack_guard reference_backend [] stackable_tensors
              py_none py_none None [] eq_refl eq_refl)
    as [Hoff [_ [Hon Htop]]].
  rewrite !(Htop eq_refl eq_refl). split; [exact Hoff |].
  apply Hon. reflexivity.
Defined.

(** Under a structured dtype the guard fires at the leaf position of the
    offending sub-structure and reports its path; nothing was converted. *)
Example implicit_stack_guard_at_path :
  @convert_to_nested_tensor reference_backend
    (py_dict [("b", py_int 1); ("a", py_list [py_tensor vector_2; py_int 3])])
    (py_dict [("a", py_none); ("b", py_none)]) py_none false (Some "root") []
  = (Raise (NotImplementedError implicit_stack_message
              (py_list [py_tensor vector_2; py_int 3]) [Key "a"]),
     [ScopeEntered "root"; ScopeExited]).
Proof. reflexivity. Qed.

(** The docstring's table of [convert_args_to_tensor], on the reference
    backend: [[[1, [2]]]] becomes [[[T(1), T([2])]]]. *)
Example convert_args_docstring_row :
  fst (@convert_args_to_tensor reference_backend
         (py_list [py_list [py_int 1; py_list [py_int 2]]]) py_none None [])
  = Ok (py_list [py_list [py_tensor (Tensor "int32" (Num 1));
                          py_tensor (Tensor "int32" (Arr [Num 2]))]]).
Proof. reflexivity. Qed.

Lemma name_only_in_whole_structure_attempts_witness :
  @convert_args_to_tensor reference_backend int_pair (py_dtype "float32")
    (Some "x") []
  = (Ok (py_tensor (Tensor "float32" (Arr [Num 1; Num 2]))),
     [Converted int_pair (py_dtype "float32") py_none None])
  /\ @convert_args_to_tensor silent_backend ragged_list py_none (Some "x") tt
     = @convert_args_to_tensor silent_backend ragged_list py_none None tt.
Proof.
  destruct (@name_only_in_whole_structure_attempts reference_backend)
    as [_ [Hdtype _]].
  destruct (@name_only_in_whole_structure_attempts silent_backend)
    as [_ [_ [_ Hname]]].
  split.
  - rewrite Hdtype by reflexivity. reflexivity.
  - apply Hname. intros v n w _. reflexivity.
Defined.

(* ================================================================== *)
(** * Further properties *)

(** ** Packing results into a structure *)

Lemma node_related_matches R s r :
  node_related (matches_up_to R) s r -> matches_up_to R s r.
Proof.
  destruct s, r; simpl; try contradiction.
  - intros [-> [-> F]]. now constructor.
  - intros [-> [-> F]]. now constructor.
  - intros [-> F]. now constructor.
Qed.

Lemma node_related_eager s r :
  node_related eagerly_converted s r -> eagerly_converted s r.
Proof.
  destruct s, r; simpl; try contradiction.
  - intros [-> [-> F]]. now constructor.
  - intros [-> [-> F]]. now constructor.
  - intros [-> F]. now constructor.
Qed.

Lemma rmap_inv {A C} (f : A -> result C) l rs :
  rmap f l = Ok rs -> Forall2 (fun a r => f a = Ok r) l rs.
Proof.
  revert rs. induction l as [| a l IH]; intros rs E; simpl in E.
  - inversion E. constructor.
  - destruct (f a) as [r | e] eqn:Ea; [| discriminate E]. simpl in E.
    destruct (rmap f l) as [rs' | e]; [| discriminate E]. simpl in E.
    inversion E; subst. constructor; auto.
Qed.

(** [pack_sequence_as] puts a flat list, one element for each leaf of the
    structure, back into the containers of the structure. *)
Lemma packed_nest_related (R : pyobj -> pyobj -> Prop) s :
  well_formed s -> is_nested s = true ->
  forall rs rest,
    Forall2 R (flatten s) rs ->
    exists packed,
      _packed_nest_with_indices s (rs ++ rest) = Ok (packed, rest)
      /\ Forall2 (matches_up_to R) (_yield_value s) packed.
Proof.
  induction s as [s H | s H IH] using nest_ind; intros Hwf Hn rs rest HR.
  - congruence.
  - rewrite packed_nest_unfold. rewrite flatten_nested in HR by assumption.
    apply well_formed_children in Hwf.
    clear H Hn. revert rs rest HR.
    induction (_yield_value s) as [| c cs IHcs]; intros rs rest HR;
      simpl in *.
    + inversion HR; subst. exists []. split; [reflexivity | constructor].
    + inversion IH as [| ? ? IHc IH']; subst.
      inversion Hwf as [| ? ? Hc Hwf']; subst.
      apply Forall2_app_inv_l in HR.
      destruct HR as [rs1 [rs2 [HR1 [HR2 ->]]]].
      destruct (IHcs IH' Hwf' rs2 rest HR2) as [ps [Eps Hps]].
      rewrite <- app_assoc.
      destruct (is_nested c) eqn:Ec.
      * destruct (IHc Hc eq_refl rs1 (rs2 ++ rest) HR1) as [child [Ech Hch]].
        rewrite Ech. simpl.
        destruct (sequence_like_related (matches_up_to R) c child Ec
                    (well_formed_keys_unique c Hc) Hch) as [p [Ep Hp]].
        rewrite Ep. simpl. rewrite Eps. simpl.
        exists (p :: ps). split; [reflexivity |].
        constructor; [now apply node_related_matches | exact Hps].
      * rewrite flatten_unnested in HR1 by assumption.
        inversion HR1 as [| ? r1 ? rs1' Hr Hnil]; subst.
        inversion Hnil; subst. simpl. rewrite Eps. simpl.
        exists (r1 :: ps). split; [reflexivity |].
        constructor; [| exact Hps].
        destruct c; try discriminate Ec. now constructor.
Qed.

Lemma pack_sequence_related (R : pyobj -> pyobj -> Prop) s rs :
  well_formed s -> Forall2 R (flatten s) rs ->
  exists r, pack_sequence_as s rs = Ok r /\ matches_up_to R s r.
Proof.
  intros Hwf HR. unfold pack_sequence_as.
  destruct (is_nested s) eqn:Hn; simpl.
  - rewrite <- (app_nil_r rs).
    destruct (packed_nest_related R s Hwf Hn rs [] HR) as [packed [E Hp]].
    rewrite E. simpl.
    destruct (sequence_like_related (matches_up_to R) s packed Hn
                (well_formed_keys_unique s Hwf) Hp) as [r [Er Hr]].
    exists r. split; [exact Er | now apply node_related_matches].
  - rewrite flatten_unnested in HR by assumption.
    inversion HR as [| ? r ? rs' Hr Hnil]; subst. inversion Hnil; subst.
    exists r. split; [reflexivity |].
    destruct s; try discriminate Hn. now constructor.
Qed.

Lemma Forall2_of_Forall {A C} (P : C -> Prop) (l : list A) (rs : list C) :
  length rs = length l -> Forall P rs -> Forall2 (fun _ r => P r) l rs.
Proof.
  revert rs. induction l as [| a l IH]; intros [| r rs] L F;
    try discriminate L; constructor.
  - now inversion F.
  - apply IH; [simpl in L; congruence | now inversion F].
Qed.

Lemma Forall2_impl_In {A C} (R R' : A -> C -> Prop) l l' :
  Forall2 R l l' ->
  (forall a b, In a l -> R a b -> R' a b) ->
  Forall2 R' l l'.
Proof.
  induction 1 as [| a b l l' Hab _ IH]; intros H; constructor.
  - apply H; [now left | exact Hab].
  - apply IH. intros a' b' Hin. apply H. now right.
Qed.

Lemma node_related_impl (R R' : pyobj -> pyobj -> Prop) s r :
  node_related R s r ->
  (forall c r', In c (children s) -> R c r' -> R' c r') ->
  node_related R' s r.
Proof.
  destruct s as [m a | k m xs | cls m fields | m items],
           r as [m' a' | k' m' xs' | cls' m' fields' | m' items'];
    simpl; try contradiction.
  - intros [-> [-> F]] H. repeat split.
    eapply Forall2_impl_In; eauto.
  - intros [-> [-> F]] H. repeat split.
    eapply Forall2_impl_In; [exact F |].
    intros kv kv' Hin [Hk Hr]. split; [exact Hk |].
    apply H; [now apply in_map | exact Hr].
  - intros [-> F] H. split; [reflexivity |].
    eapply Forall2_impl_In; [exact F |].
    intros kv kv' Hin [Hk Hr]. split; [exact Hk |].
    apply H; [now apply in_map | exact Hr].
Qed.

Lemma Forall2_map_left {A A' C} (g : A -> A') (P : A' -> C -> Prop) l l' :
  Forall2 P (map g l) l' -> Forall2 (fun a c => P (g a) c) l l'.
Proof.
  revert l'. induction l as [| a l IH]; intros l' H; inversion H; subst;
    constructor; auto.
Qed.

(* ================================================================== *)
(** ** More on the recursive conversion engine *)

Section EngineExtras.

Context {B : Backend}.

Lemma tf_convert_success value dtype dtype_hint name w r w' :
  tf_convert_to_tensor value dtype dtype_hint name w = (Ok r, w') ->
  exists t, r = py_tensor t.
Proof.
  unfold tf_convert_to_tensor.
  destruct (convert_to_tensor_op value dtype dtype_hint name w)
    as [[t | e] w1]; intros E; inversion E. eauto.
Qed.

Lemma map_children_success (f : pyobj -> M pyobj) s w r w' :
  is_nested s = true -> keys_unique s ->
  map_children f s w = (Ok r, w') ->
  node_related (fun c r' => exists w1 w2, f c w1 = (Ok r', w2)) s r.
Proof.
  intros Hn Hk E. unfold map_children, bind, lift in E.
  destruct (mapM f (_yield_value s) w) as [[rs | e] w1] eqn:Ers;
    [| discriminate E].
  destruct (sequence_like_related
              (fun c r' => exists w1 w2, f c w1 = (Ok r', w2)) s rs Hn Hk)
    as [r0 [Er0 Hr0]].
  { eapply mapM_results. exact Ers. }
  rewrite Er0 in E. inversion E; subst. exact Hr0.
Qed.

Lemma mapM_stops {A C} (f : A -> M C) before c after w rs w1 e w2 :
  mapM f before w = (Ok rs, w1) ->
  f c w1 = (Raise e, w2) ->
  mapM f (before ++ c :: after) w = (Raise e, w2).
Proof.
  revert w rs. induction before as [| a l IH]; intros w rs E Ec; simpl.
  - inversion E; subst. now rewrite mapM_cons, Ec.
  - rewrite mapM_cons in *.
    destruct (f a w) as [[r | e0] w0]; [| discriminate E].
    destruct (mapM f l w0) as [[rs' | e0] w0'] eqn:El; [| discriminate E].
    inversion E; subst. now rewrite (IH w0 rs' El Ec).
Qed.

(** X1: with no dtype, an argument bundle that is expanded as [*args] or
    [**args] is never converted as a whole: [convert_args_to_tensor] converts
    each immediate child with the engine and returns the bundle's own
    container, with a conversion of each child at its place. *)
Theorem convert_args_keeps_bundle (args : pyobj) (name : option string)
  (w : world) :
  is_nested args = true ->
  keys_unique args ->
  expand_as_args args || _expand_as_kwargs args = true ->
  convert_args_to_tensor args py_none name w
  = map_children (fun s => _nested_convert_to_tensor s py_none name) args w
  /\ forall r w',
       convert_args_to_tensor args py_none name w = (Ok r, w') ->
       node_related
         (fun c r' => exists w1 w2,
              _nested_convert_to_tensor c py_none name w1 = (Ok r', w2))
         args r.
Proof.
  intros Hn Hk He.
  assert (E : convert_args_to_tensor args py_none name w
              = map_children
                  (fun s => _nested_convert_to_tensor s py_none name) args w).
  { unfold convert_args_to_tensor. change (is_none py_none) with true.
    cbv iota. rewrite He. now apply map_structure_up_to_shallow. }
  split; [exact E |].
  intros r w' Hr. rewrite E in Hr.
  now apply (map_children_success _ args w r w').
Qed.

(** X2: a namedtuple without the force-leaf marker is never handed whole to
    the leaf converter when no dtype is given: the engine, and
    [convert_args_to_tensor], go straight to its fields. *)
Theorem namedtuple_converted_by_field (struct : pyobj) (name : option string)
  (w : world) :
  _is_namedtuple struct = true ->
  _force_leaf struct = false ->
  keys_unique struct ->
  _nested_convert_to_tensor struct py_none name w
  = map_children (fun s => _nested_convert_to_tensor s py_none name) struct w
  /\ convert_args_to_tensor struct py_none name w
     = map_children (fun s => _nested_convert_to_tensor s py_none name)
         struct w.
Proof.
  intros Hnt Hfl Hk.
  assert (Hn : is_nested struct = true)
    by (destruct struct; try discriminate Hnt; reflexivity).
  assert (E : _nested_convert_to_tensor struct py_none name w
              = map_children
                  (fun s => _nested_convert_to_tensor s py_none name)
                  struct w).
  { rewrite nested_convert_unfold, Hn.
    unfold _maybe_convertible_to_tensor. rewrite Hnt, Hfl. reflexivity. }
  split; [exact E |].
  unfold convert_args_to_tensor. change (is_none py_none) with true.
  cbv iota.
  destruct (expand_as_args struct || _expand_as_kwargs struct);
    [now apply map_structure_up_to_shallow | exact E].
Qed.

(** X3: when the whole-structure attempt on a composite succeeds, the engine
    returns that one tensor and the world the attempt left: no child is
    converted on its own. *)
Theorem whole_structure_success_is_final (struct : pyobj)
  (name : option string) (w w' : world) (t : tensor) :
  is_nested struct = true ->
  _maybe_convertible_to_tensor struct = true ->
  convert_to_tensor_op struct py_none py_none name w = (Ok t, w') ->
  _nested_convert_to_tensor struct py_none name w = (Ok (py_tensor t), w').
Proof.
  intros Hn Hc E. rewrite nested_convert_unfold, Hn, Hc. simpl.
  unfold try_except, tf_convert_to_tensor. now rewrite E.
Qed.

(** X4: whatever the engine returns, under a dtype or without one, is an
    eager conversion of its input: every leaf has become a tensor, and every
    composite has become one tensor or has kept its container, keys and order
    around the conversions of its children. *)
Theorem nested_convert_is_eager (v : pyobj) :
  well_formed v ->
  forall dtype name w r w',
    _nested_convert_to_tensor v dtype name w = (Ok r, w') ->
    eagerly_converted v r.
Proof.
  induction v as [v Hv | v Hv IH] using nest_ind;
    intros Hwf dtype name w r w' E.
  - rewrite nested_convert_drops_name in E by auto.
    apply tf_convert_success in E. destruct E as [t ->]. constructor.
  - rewrite nested_convert_unfold in E.
    destruct (negb (is_none dtype) || negb (is_nested v)).
    { apply tf_convert_success in E. destruct E as [t ->]. constructor. }
    assert (Hchildren : forall w0 r0 w0',
               map_children
                 (fun s => _nested_convert_to_tensor s py_none name) v w0
               = (Ok r0, w0') -> eagerly_converted v r0).
    { intros w0 r0 w0' E0.
      apply map_children_success in E0;
        auto using well_formed_keys_unique.
      apply node_related_eager.
      pose proof (well_formed_children v Hwf) as Hwfc.
      rewrite Forall_forall in IH, Hwfc.
      assert (Hin : forall c r', In c (children v) ->
                (exists w1 w2,
                    _nested_convert_to_tensor c py_none name w1 = (Ok r', w2))
                -> eagerly_converted c r').
      { intros c r' Hc [w1 [w2 Ec]].
        apply yield_value_In in Hc. eapply IH; eauto. }
      eapply node_related_impl; eauto. }
    destruct (_maybe_convertible_to_tensor v); [| eapply Hchildren; eauto].
    unfold try_except in E.
    destruct (tf_convert_to_tensor v py_none py_none name w)
      as [[r1 | e] w1] eqn:Ew.
    + inversion E; subst. apply tf_convert_success in Ew.
      destruct Ew as [t ->]. constructor.
    + destruct (is_value_or_type_error e); [| discriminate E].
      eapply Hchildren; eauto.
Qed.

(** X5: after a whole-structure attempt that raised a [ValueError] or
    [TypeError] (or was skipped), the children are converted in traversal
    order, for a dictionary the order of its sorted keys, and the first child
    whose conversion raises ends the call with that exception: the children
    after it are never converted and no partial result is returned. *)
Theorem first_failing_child_ends_conversion (struct : pyobj)
  (name : option string) (before after : list pyobj) (c : pyobj)
  (w w0 w1 w2 : world) (rs : list pyobj) (e : exn) :
  is_nested struct = true ->
  _yield_value struct = before ++ c :: after ->
  (_maybe_convertible_to_tensor struct = false /\ w0 = w
   \/ _maybe_convertible_to_tensor struct = true
      /\ exists e0,
           tf_convert_to_tensor struct py_none py_none name w = (Raise e0, w0)
           /\ is_value_or_type_error e0 = true) ->
  mapM (fun s => _nested_convert_to_tensor s py_none name) before w0
  = (Ok rs, w1) ->
  _nested_convert_to_tensor c py_none name w1 = (Raise e, w2) ->
  _nested_convert_to_tensor struct py_none name w = (Raise e, w2).
Proof.
  intros Hn Hy Hwhole Hbefore Hc.
  assert (Hch : map_children
                  (fun s => _nested_convert_to_tensor s py_none name)
                  struct w0 = (Raise e, w2)).
  { unfold map_children, bind. rewrite Hy.
    now rewrite (mapM_stops _ before c after w0 rs w1 e w2 Hbefore Hc). }
  rewrite nested_convert_unfold, Hn. simpl.
  destruct Hwhole as [[Hm ->] | [Hm [e0 [E0 He0]]]]; rewrite Hm.
  - exact Hch.
  - unfold try_except. now rewrite E0, He0.
Qed.

End EngineExtras.

(* ================================================================== *)
(** ** Flattening up to a shallow structure *)

Lemma concat_length_Forall2 {A C} (f : A -> list C) (l : list A)
  (parts : list (list (path * pyobj))) :
  Forall2 (fun a part => length part = length (f a)) l parts ->
  length (concat parts) = length (concat (map f l)).
Proof.
  induction 1 as [| a part l parts E _ IH]; simpl; [reflexivity |].
  now rewrite !length_app, E, IH.
Qed.

Lemma yield_flat_up_to_length shallow :
  forall input p parts,
    _yield_flat_up_to shallow input p = Ok parts ->
    length parts = length (flatten shallow).
Proof.
  induction shallow as [s Hs | s Hs IH] using nest_ind;
    intros input p parts E; rewrite yield_flat_up_to_unfold, Hs in E;
    simpl in E.
  - inversion E. now rewrite flatten_unnested.
  - match type of E with
    | rbind (rmap ?h ?l) _ = _ => destruct (rmap h l) as [ps | e] eqn:Eps
    end; [| discriminate E].
    simpl in E. inversion E; subst. clear E.
    rewrite flatten_nested by assumption.
    apply rmap_inv in Eps. unfold _yield_value.
    rewrite map_map.
    apply (concat_length_Forall2 (fun kc => flatten (snd kc))).
    rewrite Forall_forall in IH.
    eapply Forall2_impl_In; [exact Eps |].
    intros [k c] part Hin Hpart. simpl in *.
    destruct (assoc path_key_eqb k (_yield_sorted_items input));
      [| discriminate Hpart].
    eapply IH; [| exact Hpart].
    unfold _yield_value. apply in_map_iff. exists (k, c). auto.
Qed.

Lemma flatten_up_to_length shallow input check_types flat :
  flatten_up_to shallow input check_types = Ok flat ->
  length flat = length (flatten shallow).
Proof.
  unfold flatten_up_to. intros E.
  destruct (assert_shallow_structure check_types shallow input);
    [| discriminate E]. simpl in E.
  destruct (_yield_flat_up_to shallow input []) as [parts | e] eqn:Ep;
    [| discriminate E]. simpl in E. inversion E; subst.
  rewrite length_map. eapply yield_flat_up_to_length; eauto.
Qed.

(** Flattening a structure up to itself yields its leaves. *)
Lemma yield_flat_up_to_self s :
  well_formed s ->
  forall p, exists parts,
    _yield_flat_up_to s s p = Ok parts /\ map snd parts = flatten s.
Proof.
  induction s as [s Hs | s Hs IH] using nest_ind; intros Hwf p;
    rewrite yield_flat_up_to_unfold, Hs; simpl.
  - eexists. split; [reflexivity |]. now rewrite flatten_unnested.
  - rewrite flatten_nested by assumption.
    pose proof (sorted_keys_NoDup s (well_formed_keys_unique s Hwf)) as Hnd.
    pose proof (well_formed_children s Hwf) as Hwfc.
    unfold _yield_value in *. rewrite Forall_map in IH, Hwfc.
    assert (E : forall part, incl part (_yield_sorted_items s) ->
              exists ps,
                rmap (fun sub : path_key * pyobj =>
                        match assoc path_key_eqb (fst sub)
                                (_yield_sorted_items s) with
                        | Some input_subtree =>
                            _yield_flat_up_to (snd sub) input_subtree
                              (p ++ [fst sub])
                        | None => Raise (KeyError (fst sub))
                        end) part = Ok ps
                /\ map snd (concat ps)
                   = concat (map flatten (map snd part))).
    { induction part as [| [k c] part IHp]; intros Hincl.
      - exists []. split; reflexivity.
      - assert (Hin : In (k, c) (_yield_sorted_items s))
          by (apply Hincl; now left).
        rewrite Forall_forall in IH, Hwfc.
        destruct (IH (k, c) Hin (Hwfc (k, c) Hin) (p ++ [k]))
          as [pc [Epc Hpc]].
        destruct IHp as [ps [Eps Hps]];
          [intros x Hx; apply Hincl; now right |].
        exists (pc :: ps). simpl.
        rewrite (assoc_NoDup_In _ k c Hnd Hin). simpl in *.
        rewrite Epc. simpl. rewrite Eps. simpl.
        split; [reflexivity |]. now rewrite map_app, Hpc, Hps. }
    destruct (E (_yield_sorted_items s) (incl_refl _)) as [ps [Eps Hps]].
    rewrite Eps. simpl. eexists. split; [reflexivity | exact Hps].
Qed.

Lemma zip_with_paths_length (ps : list path) flats :
  Forall (fun flat : list pyobj => length flat = length ps) flats ->
  length (zip_with_paths ps flats) = length ps.
Proof.
  unfold zip_with_paths.
  induction 1 as [| flat flats E _ IH]; simpl.
  - apply length_map.
  - rewrite length_map, length_combine, IH, E. apply Nat.min_id.
Qed.

Lemma zip_with_paths_pair (ps : list path) (fa fd : list pyobj) :
  length fa = length ps -> length fd = length ps ->
  Forall2 (fun arg d => exists a, snd arg = [a; d])
          (zip_with_paths ps [fa; fd]) fd.
Proof.
  unfold zip_with_paths. simpl.
  revert fa fd. induction ps as [| p ps IH]; intros [| a fa] [| d fd] La Ld;
    try discriminate La; try discriminate Ld; simpl; constructor.
  - simpl. eauto.
  - apply IH; simpl in *; congruence.
Qed.

Lemma Forall2_compose {A C D} (P : A -> C -> Prop) (Q : A -> D -> Prop)
  (l : list A) rs ds :
  Forall2 P l rs -> Forall2 Q l ds ->
  Forall2 (fun d r => exists a, Q a d /\ P a r) ds rs.
Proof.
  intros HP. revert ds.
  induction HP as [| a r l rs Hr _ IH]; intros ds HQ;
    inversion HQ; subst; constructor; eauto.
Qed.

Section UpToResults.

Context {B : Backend}.

Lemma up_to_inv shallow func inputs check_types w r w' :
  map_structure_with_tuple_paths_up_to shallow func inputs check_types w
  = (Ok r, w') ->
  exists input0 rest flats parts rs,
    inputs = input0 :: rest
    /\ rmap (fun input_tree =>
               flatten_up_to shallow input_tree check_types) inputs
       = Ok flats
    /\ _yield_flat_up_to shallow input0 [] = Ok parts
    /\ mapM (fun args => func (fst args) (snd args))
         (zip_with_paths (map fst parts) flats) w = (Ok rs, w')
    /\ pack_sequence_as shallow rs = Ok r.
Proof.
  unfold map_structure_with_tuple_paths_up_to.
  destruct inputs as [| input0 rest]; [discriminate |].
  unfold bind, lift. intros E.
  destruct (rmap (assert_shallow_structure check_types shallow)
              (input0 :: rest)); [| discriminate E].
  destruct (rmap (fun input_tree =>
                    flatten_up_to shallow input_tree check_types)
              (input0 :: rest)) as [flats | e] eqn:Ef; [| discriminate E].
  destruct (_yield_flat_up_to shallow input0 []) as [parts | e] eqn:Ey;
    [| discriminate E].
  destruct (mapM (fun args => func (fst args) (snd args))
              (zip_with_paths (map fst parts) flats) w)
    as [[rs | e] w1] eqn:Em; [| discriminate E].
  destruct (pack_sequence_as shallow rs) as [r0 | e] eqn:Ep;
    inversion E; subst.
  exists input0, rest, flats, parts, rs. repeat split; auto.
Qed.

(** A successful [map_structure_with_tuple_paths_up_to] packs one result of
    [func] for each leaf of the shallow structure. *)
Lemma up_to_results shallow func inputs check_types w r w' :
  map_structure_with_tuple_paths_up_to shallow func inputs check_types w
  = (Ok r, w') ->
  exists rs,
    pack_sequence_as shallow rs = Ok r
    /\ length rs = length (flatten shallow)
    /\ Forall (fun r0 => exists p args w1 w2,
                   func p args w1 = (Ok r0, w2)) rs.
Proof.
  intros E. apply up_to_inv in E.
  destruct E as [input0 [rest [flats [parts [rs [-> [Ef [Ep [Em Epack]]]]]]]]].
  exists rs. split; [exact Epack |].
  pose proof (yield_flat_up_to_length _ _ _ _ Ep) as Lp.
  assert (Lf : Forall (fun flat : list pyobj =>
                         length flat = length (map fst parts)) flats).
  { apply rmap_inv in Ef. rewrite length_map, Lp.
    clear - Ef. induction Ef as [| i f l fl Hf _ IH]; constructor; auto.
    eapply flatten_up_to_length; eauto. }
  split.
  - rewrite (mapM_length _ _ _ _ _ Em), zip_with_paths_length by exact Lf.
    now rewrite length_map.
  - apply mapM_results in Em. clear - Em.
    induction Em as [| a r0 l rs [w1 [w2 H]] _ IH]; constructor; eauto.
Qed.

End UpToResults.

Lemma flatten_up_to_self s check_types flat :
  well_formed s ->
  flatten_up_to s s check_types = Ok flat -> flat = flatten s.
Proof.
  intros Hwf E. unfold flatten_up_to in E.
  destruct (assert_shallow_structure check_types s s); [| discriminate E].
  simpl in E. destruct (yield_flat_up_to_self s Hwf []) as [parts [Ep Hp]].
  rewrite Ep in E. simpl in E. inversion E. exact Hp.
Qed.

Lemma matches_tensor_leafwise s :
  forall r,
    matches_up_to (fun _ r' => exists t, r' = py_tensor t) s r ->
    leafwise_converted s r.
Proof.
  induction s as [m a | k m xs IH | cls m fields IH | m items IH]
    using pyobj_rect'; intros r H; inversion H; subst.
  - match goal with Ht : exists _, _ |- _ => destruct Ht as [t ->] end.
    constructor.
  - constructor. rewrite Forall_forall in IH.
    eapply Forall2_impl_In; eauto.
  - constructor. rewrite Forall_forall in IH.
    match goal with F : Forall2 _ _ _ |- _ =>
      eapply Forall2_impl_In; [exact F |] end.
    intros kv kv' Hin [Hk Hr]. split; [exact Hk | now apply (IH kv)].
  - constructor. rewrite Forall_forall in IH.
    match goal with F : Forall2 _ _ _ |- _ =>
      eapply Forall2_impl_In; [exact F |] end.
    intros kv kv' Hin [Hk Hr]. split; [exact Hk | now apply (IH kv)].
Qed.

Lemma leafwise_tree_map (f : pyobj -> pyobj) s :
  (forall l, is_nested (f l) = false) ->
  forall r, leafwise_converted (tree_map f s) r -> leafwise_converted s r.
Proof.
  intros Hf.
  induction s as [m a | k m xs IH | cls m fields IH | m items IH]
    using pyobj_rect'; intros r H; simpl in H.
  - specialize (Hf (Atom m a)).
    destruct (f (Atom m a)); try discriminate Hf.
    inversion H; subst. constructor.
  - inversion H; subst. constructor. rewrite Forall_forall in IH.
    match goal with F : Forall2 _ _ _ |- _ =>
      apply Forall2_map_left in F; eapply Forall2_impl_In; [exact F |] end.
    intros c r' Hin Hr. now apply IH.
  - inversion H; subst. constructor. rewrite Forall_forall in IH.
    match goal with F : Forall2 _ _ _ |- _ =>
      apply Forall2_map_left in F; eapply Forall2_impl_In; [exact F |] end.
    intros kv kv' Hin [Hk Hr]. simpl in *. split; [exact Hk |].
    now apply (IH kv).
  - inversion H; subst. constructor. rewrite Forall_forall in IH.
    match goal with F : Forall2 _ _ _ |- _ =>
      apply Forall2_map_left in F; eapply Forall2_impl_In; [exact F |] end.
    intros kv kv' Hin [Hk Hr]. simpl in *. split; [exact Hk |].
    now apply (IH kv).
Qed.

Lemma well_formed_tree_map (f : pyobj -> pyobj) s :
  (forall l, is_nested (f l) = false) ->
  well_formed s -> well_formed (tree_map f s).
Proof.
  intros Hf.
  induction s as [m a | k m xs IH | cls m fields IH | m items IH]
    using pyobj_rect'; intros Hwf; simpl.
  - specialize (Hf (Atom m a)).
    destruct (f (Atom m a)); try discriminate Hf. constructor.
  - inversion Hwf; subst. constructor. apply Forall_map.
    rewrite Forall_forall in *. auto.
  - inversion Hwf; subst. constructor.
    + now rewrite map_map.
    + apply Forall_map. rewrite Forall_forall in *. simpl. auto.
  - inversion Hwf; subst. constructor.
    + now rewrite map_map.
    + apply Forall_map. rewrite Forall_forall in *. simpl. auto.
Qed.

Lemma is_nested_tree_map (f : pyobj -> pyobj) s :
  (forall l, is_nested (f l) = false) ->
  is_nested (tree_map f s) = is_nested s.
Proof. intros Hf. destruct s; simpl; auto. Qed.

(* ================================================================== *)
(** ** [assert_same_structure] and broadcasting *)

Lemma recursive_assert_same_unfold check_types nest1 nest2 :
  _recursive_assert_same_structure check_types nest1 nest2
  = if negb (Bool.eqb (is_nested nest1) (is_nested nest2)) then
      Raise (ValueError
        "The two structures don't have the same nested structure.")
    else if negb (is_nested nest1) then Ok tt
    else if check_types
            && negb (same_class nest1 nest2)
            && negb (_same_namedtuples nest1 nest2
                     || (isinstance_Mapping nest1
                         && isinstance_Mapping nest2)) then
      Raise (TypeError "The two structures don't have the same nested structure.")
    else if check_types
            && isinstance_Mapping nest1 && isinstance_Mapping nest2
            && negb (forallb (fun k => existsb (String.eqb k)
                                         (str_elements nest2))
                             (str_elements nest1)
                     && forallb (fun k => existsb (String.eqb k)
                                            (str_elements nest1))
                                (str_elements nest2)) then
      Raise (ValueError
        "The two dictionaries don't have the same set of keys.")
    else
      run_checks
        (map (_recursive_assert_same_structure check_types)
           (_yield_value nest1))
        (_yield_value nest2).
Proof.
  rewrite <- sorted_items_with_values. destruct nest1; reflexivity.
Qed.

Lemma run_checks_pointwise (check : pyobj -> pyobj -> result unit)
  (g : pyobj -> pyobj) cs :
  Forall (fun c => check c (g c) = Ok tt) cs ->
  run_checks (map check cs) (map g cs) = Ok tt.
Proof.
  induction 1 as [| c cs Hc _ IH]; simpl; [reflexivity |].
  rewrite Hc. simpl. exact IH.
Qed.

Lemma same_class_tree_map_node g s :
  is_nested s = true -> same_class s (tree_map_node g s) = true.
Proof.
  destruct s as [m a | k m xs | cls m fields | m items]; intros Hn;
    try discriminate Hn; simpl;
    rewrite ?seq_kind_eqb_refl, ?markers_eqb_refl, ?String.eqb_refl,
      ?map_map; simpl; rewrite ?list_eqb_string_refl; reflexivity.
Qed.

Lemma str_elements_tree_map_node g s :
  isinstance_Mapping s = true ->
  str_elements (tree_map_node g s) = str_elements s.
Proof.
  destruct s; try discriminate. intros _. simpl. now rewrite map_map.
Qed.

Lemma recursive_assert_same_tree_map (f : pyobj -> pyobj) s :
  (forall l, is_nested (f l) = false) ->
  _recursive_assert_same_structure true s (tree_map f s) = Ok tt.
Proof.
  intros Hf. induction s as [s Hs | s Hs IH] using nest_ind;
    rewrite recursive_assert_same_unfold, is_nested_tree_map, Hs
      by assumption; simpl; [reflexivity |].
  rewrite tree_map_nested by assumption.
  rewrite same_class_tree_map_node by assumption. simpl.
  replace (isinstance_Mapping s
           && isinstance_Mapping (tree_map_node (tree_map f) s)
           && negb
                (forallb
                   (fun k => existsb (String.eqb k)
                               (str_elements (tree_map_node (tree_map f) s)))
                   (str_elements s)
                 && forallb
                      (fun k => existsb (String.eqb k) (str_elements s))
                      (str_elements (tree_map_node (tree_map f) s))))
    with false.
  2: { destruct (isinstance_Mapping s) eqn:Em; [| reflexivity].
       rewrite str_elements_tree_map_node by assumption.
       rewrite keys_subset_refl. simpl. now rewrite andb_false_r. }
  rewrite yield_value_tree_map_node.
  now apply run_checks_pointwise.
Qed.

Lemma assert_same_tree_map (f : pyobj -> pyobj) s :
  (forall l, is_nested (f l) = false) ->
  assert_same_structure s (tree_map f s) = Ok tt.
Proof.
  intros Hf. unfold assert_same_structure.
  rewrite is_nested_tree_map, flatten_tree_map, length_map by assumption.
  rewrite Nat.eqb_refl. simpl.
  now apply recursive_assert_same_tree_map.
Qed.

Lemma run_checks_pointwise_left (check : pyobj -> pyobj -> result unit)
  (g : pyobj -> pyobj) cs :
  Forall (fun c => check (g c) c = Ok tt) cs ->
  run_checks (map check (map g cs)) cs = Ok tt.
Proof.
  induction 1 as [| c cs Hc _ IH]; simpl; [reflexivity |].
  rewrite Hc. simpl. exact IH.
Qed.

Lemma same_class_tree_map_node_left g s :
  is_nested s = true -> same_class (tree_map_node g s) s = true.
Proof.
  destruct s as [m a | k m xs | cls m fields | m items]; intros Hn;
    try discriminate Hn; simpl;
    rewrite ?seq_kind_eqb_refl, ?markers_eqb_refl, ?String.eqb_refl,
      ?map_map; simpl; rewrite ?list_eqb_string_refl; reflexivity.
Qed.

Lemma isinstance_Mapping_tree_map_node g s :
  isinstance_Mapping (tree_map_node g s) = isinstance_Mapping s.
Proof. destruct s; reflexivity. Qed.

Lemma recursive_assert_same_tree_map_left (f : pyobj -> pyobj) s :
  (forall l, is_nested (f l) = false) ->
  _recursive_assert_same_structure true (tree_map f s) s = Ok tt.
Proof.
  intros Hf. induction s as [s Hs | s Hs IH] using nest_ind;
    rewrite recursive_assert_same_unfold, is_nested_tree_map, Hs
      by assumption; simpl; [reflexivity |].
  rewrite tree_map_nested by assumption.
  rewrite same_class_tree_map_node_left by assumption. simpl.
  rewrite isinstance_Mapping_tree_map_node.
  replace (isinstance_Mapping s && isinstance_Mapping s
           && negb
                (forallb
                   (fun k => existsb (String.eqb k) (str_elements s))
                   (str_elements (tree_map_node (tree_map f) s))
                 && forallb
                      (fun k => existsb (String.eqb k)
                                  (str_elements
                                     (tree_map_node (tree_map f) s)))
                      (str_elements s)))
    with false.
  2: { destruct (isinstance_Mapping s) eqn:Em; [| reflexivity].
       rewrite str_elements_tree_map_node by assumption.
       rewrite keys_subset_refl. reflexivity. }
  rewrite yield_value_tree_map_node.
  now apply run_checks_pointwise_left.
Qed.

Lemma assert_same_tree_map_left (f : pyobj -> pyobj) s :
  (forall l, is_nested (f l) = false) ->
  assert_same_structure (tree_map f s) s = Ok tt.
Proof.
  intros Hf. unfold assert_same_structure.
  rewrite is_nested_tree_map, flatten_tree_map, length_map by assumption.
  rewrite Nat.eqb_refl. simpl.
  now apply recursive_assert_same_tree_map_left.
Qed.

(** X6: what [broadcast_structure] tiles over a template passes
    [assert_same_structure] against that template, so the two can be zipped
    or mapped together. *)
Theorem broadcast_matches_template (T S : pyobj) :
  well_formed T ->
  length (flatten S) = 1 ->
  exists R,
    broadcast_structure T S = Ok R
    /\ assert_same_structure T R = Ok tt.
Proof.
  intros Hwf L.
  destruct (flatten S) as [| x [| y l]] eqn:E; try discriminate L.
  pose proof (singleton_leaf S x E) as Hx.
  exists (tree_map (fun _ => x) T).
  split; [now apply broadcast_singleton | now apply assert_same_tree_map].
Qed.

(** X7: on a template that is itself a leaf, a source with one leaf comes
    back as that bare leaf, without the containers the source had around
    it. *)
Theorem broadcast_onto_leaf_unwraps (T S x : pyobj) :
  is_nested T = false ->
  flatten S = [x] ->
  broadcast_structure T S = Ok x /\ is_nested x = false.
Proof.
  intros Hn E. split; [| now apply (singleton_leaf S)].
  rewrite (broadcast_singleton T S x); [| | exact E].
  - destruct T; try discriminate Hn. reflexivity.
  - destruct T; try discriminate Hn. constructor.
Qed.

(* ================================================================== *)
(** ** More on the call-convention resolver *)

Lemma chars_length s : length (chars s) = String.length s.
Proof. induction s as [| c s IH]; simpl; congruence. Qed.

(** X8: a string is a [collections.Sequence]: unless it carries force-leaf,
    [call_fn] expands it and the callable receives one positional argument
    for each character. *)
Theorem call_fn_expands_strings {R} (fn : callable R) (m : markers)
  (s : string) :
  has_force_leaf m = false ->
  call_fn fn (Atom m (PyStr s)) = fn (chars s) []
  /\ length (chars s) = String.length s.
Proof.
  intros H. split; [| apply chars_length].
  unfold call_fn, expand_as_args, _force_leaf. simpl. now rewrite H.
Qed.

(* ================================================================== *)
(** ** The shallow structure *)

(** X9: the shallow structure of a composite is the composite's own
    container, same keys and order, with [False] for every child; the
    composite passes [assert_shallow_structure] against it and flattens up to
    it into its immediate children.  Of anything else it is [True]. *)
Theorem shallow_structure_masks_children (struct : pyobj) :
  keys_unique struct ->
  (is_nested struct = false -> _get_shallow_structure struct = Ok py_true)
  /\ (is_nested struct = true ->
      exists shallow,
        _get_shallow_structure struct = Ok shallow
        /\ node_related (fun _ c => c = py_false) struct shallow
        /\ assert_shallow_structure true shallow struct = Ok tt
        /\ flatten_up_to shallow struct true = Ok (_yield_value struct)).
Proof.
  intros Hk. split; intros Hn.
  - now rewrite get_shallow_structure_unfold, Hn.
  - exists (shallow_of struct).
    split; [now apply get_shallow_structure_nested |].
    split; [| split; [now apply assert_shallow_of
                     | now apply flatten_up_to_shallow_of]].
    unfold shallow_of.
    destruct struct as [m a | k m xs | cls m fields | m items];
      try discriminate Hn; clear Hk Hn; simpl; repeat split.
    + induction xs; simpl; constructor; auto.
    + induction fields; simpl; constructor; auto.
    + induction items; simpl; constructor; auto.
Qed.

(* ================================================================== *)
(** ** Conversions under a structured dtype *)

Section StructuredDtype.

Context {B : Backend}.

Lemma up_to_tensors shallow func inputs check_types w r w' :
  well_formed shallow ->
  (forall p args w1 r0 w2,
     func p args w1 = (Ok r0, w2) -> exists t, r0 = py_tensor t) ->
  map_structure_with_tuple_paths_up_to shallow func inputs check_types w
  = (Ok r, w') ->
  leafwise_converted shallow r.
Proof.
  intros Hwf Hfunc E. apply up_to_results in E.
  destruct E as [rs [Epack [L F]]].
  destruct (pack_sequence_related (fun _ r' => exists t, r' = py_tensor t)
              shallow rs Hwf) as [r0 [Er0 Hr0]].
  { apply Forall2_of_Forall; [exact L |].
    eapply Forall_impl; [| exact F].
    intros r1 [p [args [w1 [w2 H]]]]. eauto. }
  rewrite Er0 in Epack. inversion Epack; subst.
  now apply matches_tensor_leafwise.
Qed.

Lemma convert_fn_success allow_packing p value dtype dtype_hint name w r w' :
  convert_fn allow_packing p value dtype dtype_hint name w = (Ok r, w') ->
  exists t, r = py_tensor t.
Proof.
  unfold convert_fn.
  destruct (negb allow_packing && is_nested value
            && existsb (fun x => tf_is_tensor x || isinstance_ndarray x)
                 (flatten value)); [discriminate |].
  apply tf_convert_success.
Qed.

(** X10: under a dtype structure, what [convert_args_to_tensor] returns has
    the containers, keys and order of the dtype structure down to its leaves,
    and holds one tensor at the place of every leaf that is a concrete
    dtype, whatever the argument had there. *)
Theorem structured_dtype_shapes_output (args dtype : pyobj)
  (name : option string) (w w' : world) (r : pyobj) :
  well_formed dtype ->
  is_none dtype = false ->
  convert_args_to_tensor args dtype name w = (Ok r, w') ->
  matches_up_to
    (fun d r' => is_none d = false -> exists t, r' = py_tensor t) dtype r.
Proof.
  intros Hwf Hnone E. unfold convert_args_to_tensor in E.
  rewrite Hnone in E. unfold map_structure_up_to in E.
  apply up_to_inv in E.
  destruct E as [input0 [rest [flats [parts [rs [Ei [Ef [Ep [Em Epack]]]]]]]]].
  injection Ei as <- <-.
  simpl in Ef.
  destruct (flatten_up_to dtype args true) as [fa | e] eqn:Efa;
    [| discriminate Ef].
  destruct (flatten_up_to dtype dtype true) as [fd | e] eqn:Efd;
    [| discriminate Ef].
  simpl in Ef. inversion Ef; subst. clear Ef.
  pose proof (flatten_up_to_length _ _ _ _ Efa) as La.
  pose proof (flatten_up_to_length _ _ _ _ Efd) as Ld.
  pose proof (yield_flat_up_to_length _ _ _ _ Ep) as Lp.
  apply flatten_up_to_self in Efd; [| exact Hwf]. subst fd.
  assert (Hz : Forall2 (fun arg d => exists a, snd arg = [a; d])
                 (zip_with_paths (map fst parts) [fa; flatten dtype])
                 (flatten dtype)).
  { apply zip_with_paths_pair; rewrite length_map; congruence. }
  apply mapM_results in Em.
  pose proof (Forall2_compose _ _ _ _ _ Em Hz) as HR.
  destruct (pack_sequence_related
              (fun d r' => is_none d = false -> exists t, r' = py_tensor t)
              dtype rs Hwf) as [r0 [Er0 Hr0]].
  { eapply Forall2_impl_In; [exact HR |].
    intros d r1 _ [arg [[a Ea] [w1 [w2 Hc]]]] Hd.
    rewrite Ea in Hc. simpl in Hc.
    rewrite nested_convert_drops_name in Hc by auto.
    eapply tf_convert_success; eauto. }
  rewrite Er0 in Epack. inversion Epack; subst. exact Hr0.
Qed.

(** X11: under a nested dtype a structure is never converted partly: the
    arguments must be nested where the dtype is, and an argument that is not
    nested at all ends the call with a [TypeError] before anything is
    converted. *)
Theorem structured_dtype_rejects_leaf_args (args dtype : pyobj)
  (name : option string) (w : world) :
  is_nested dtype = true ->
  is_nested args = false ->
  convert_args_to_tensor args dtype name w
  = (Raise (TypeError
       "If shallow structure is a sequence, input must also be a sequence."),
     w).
Proof.
  intros Hd Ha. unfold convert_args_to_tensor.
  replace (is_none dtype) with false
    by (destruct dtype; try discriminate Hd; reflexivity).
  unfold map_structure_up_to, map_structure_with_tuple_paths_up_to.
  unfold bind, lift. simpl.
  now rewrite assert_shallow_unfold, Hd, Ha.
Qed.

Lemma with_name_scope_success {A} name (body : M A) w r w' :
  with_name_scope name body w = (Ok r, w') ->
  exists w1, body (name_scope_enter name w) = (Ok r, w1).
Proof.
  unfold with_name_scope.
  destruct (body (name_scope_enter name w)) as [r0 w1].
  intros E. inversion E; subst. eauto.
Qed.

Lemma convert_to_nested_tensor_steps value dtype dtype_hint allow_packing
  name w :
  convert_to_nested_tensor value dtype dtype_hint allow_packing name w
  = match reconcile dtype dtype_hint with
    | Ok dh =>
        convert_reconciled value (fst dh) (snd dh) allow_packing name w
    | Raise e => (Raise e, w)
    end.
Proof.
  unfold convert_to_nested_tensor, reconcile, convert_reconciled, bind, lift.
  destruct (is_nested dtype && is_nested dtype_hint).
  - destruct (assert_same_structure dtype dtype_hint); reflexivity.
  - destruct (is_nested dtype).
    + destruct (broadcast_structure dtype dtype_hint); reflexivity.
    + destruct (is_nested dtype_hint); [| reflexivity].
      destruct (broadcast_structure dtype_hint dtype); reflexivity.
Qed.

Lemma convert_reconciled_tensors dtype value dtype_hint allow_packing name
  w r w' :
  well_formed dtype -> is_nested dtype = true ->
  convert_reconciled value dtype dtype_hint allow_packing name w
  = (Ok r, w') ->
  leafwise_converted dtype r.
Proof.
  intros Hwf Hn E. unfold convert_reconciled in E. rewrite Hn in E.
  cbv beta iota delta [negb] in E.
  destruct name as [scope |].
  - apply with_name_scope_success in E. destruct E as [w1 E].
    eapply up_to_tensors; [exact Hwf | | exact E].
    intros p [| v [| d [| h [| x l]]]] w0 r0 w2 H; try discriminate H.
    eapply convert_fn_success; eauto.
  - eapply up_to_tensors; [exact Hwf | | exact E].
    intros p [| v [| d [| h [| x l]]]] w0 r0 w2 H; try discriminate H.
    eapply convert_fn_success; eauto.
Qed.

(** X12: when dtype or dtype_hint is nested, what
    [convert_to_nested_tensor] returns has exactly the Shape of the nested
    one (of dtype when both are): the same containers, keys and order, and
    one tensor at every leaf position. *)
Theorem nested_dtype_shapes_output (value dtype dtype_hint : pyobj)
  (allow_packing : bool) (name : option string) (w w' : world) (r : pyobj) :
  is_nested dtype || is_nested dtype_hint = true ->
  well_formed (if is_nested dtype then dtype else dtype_hint) ->
  convert_to_nested_tensor value dtype dtype_hint allow_packing name w
  = (Ok r, w') ->
  leafwise_converted (if is_nested dtype then dtype else dtype_hint) r
  /\ same_shape r (if is_nested dtype then dtype else dtype_hint).
Proof.
  intros Hn Hwf E.
  assert (H : leafwise_converted
                (if is_nested dtype then dtype else dtype_hint) r);
    [| split; [exact H | now apply leafwise_converted_shape]].
  rewrite convert_to_nested_tensor_steps in E. unfold reconcile in E.
  destruct (is_nested dtype) eqn:Hd.
  - destruct (is_nested dtype_hint) eqn:Hh;
      cbv beta iota delta [andb] in E.
    + destruct (assert_same_structure dtype dtype_hint);
        [| discriminate E].
      cbv beta iota delta [rbind fst snd] in E.
      eapply convert_reconciled_tensors; eauto.
    + destruct (broadcast_structure dtype dtype_hint) as [hint | e];
        [| discriminate E].
      cbv beta iota delta [rbind fst snd] in E.
      eapply convert_reconciled_tensors; eauto.
  - simpl in Hn. rewrite Hn in E. cbv beta iota delta [andb] in E.
    rewrite (broadcast_singleton dtype_hint dtype dtype) in E;
      [| exact Hwf | now apply flatten_unnested].
    cbv beta iota delta [rbind fst snd] in E.
    apply (leafwise_tree_map (fun _ => dtype)); [auto |].
    eapply convert_reconciled_tensors; [| | exact E].
    + apply well_formed_tree_map; auto.
    + now rewrite is_nested_tree_map by auto.
Qed.

(** X13: a dtype_hint that is not nested means the same as that hint tiled
    over the nested dtype, and a dtype that is not nested the same as that
    dtype tiled over the nested hint: the two calls are the same
    computation. *)
Theorem atomic_constraint_is_tiled (value dtype dtype_hint : pyobj)
  (allow_packing : bool) (name : option string) (w : world) :
  (is_nested dtype = true -> is_nested dtype_hint = false ->
   well_formed dtype ->
   convert_to_nested_tensor value dtype dtype_hint allow_packing name w
   = convert_to_nested_tensor value dtype
       (tree_map (fun _ => dtype_hint) dtype) allow_packing name w)
  /\ (is_nested dtype = false -> is_nested dtype_hint = true ->
      well_formed dtype_hint ->
      convert_to_nested_tensor value dtype dtype_hint allow_packing name w
      = convert_to_nested_tensor value
          (tree_map (fun _ => dtype) dtype_hint) dtype_hint
          allow_packing name w).
Proof.
  split; intros H1 H2 Hwf; rewrite !convert_to_nested_tensor_steps;
    unfold reconcile; rewrite is_nested_tree_map, H1, H2 by auto;
    cbv beta iota delta [andb].
  - rewrite (broadcast_singleton dtype dtype_hint dtype_hint)
      by (auto using flatten_unnested).
    rewrite assert_same_tree_map by auto. reflexivity.
  - rewrite (broadcast_singleton dtype_hint dtype dtype)
      by (auto using flatten_unnested).
    rewrite assert_same_tree_map_left by auto. reflexivity.
Qed.


(** X15: with dtype and dtype_hint not nested, a value that is not nested
    (a single tensor, array or scalar), or that holds no tensor and no array,
    never meets the implicit-stack guard: also with packing disallowed the
    call is one call of the leaf converter on the whole value, under the
    given name. *)
Theorem guard_passes_plain_values (value dtype dtype_hint : pyobj)
  (allow_packing : bool) (name : option string) (w : world) :
  is_nested dtype = false ->
  is_nested dtype_hint = false ->
  is_nested value = false
  \/ existsb (fun x => tf_is_tensor x || isinstance_ndarray x)
       (flatten value) = false ->
  convert_to_nested_tensor value dtype dtype_hint allow_packing name w
  = tf_convert_to_tensor value dtype dtype_hint name w.
Proof.
  intros Hd Hh Hv. rewrite convert_to_nested_tensor_steps.
  unfold reconcile, convert_reconciled, convert_fn.
  rewrite Hd, Hh. simpl. rewrite Hd. simpl.
  destruct Hv as [Hv | Hv]; rewrite Hv; now rewrite ?andb_false_r.
Qed.

End StructuredDtype.

(* ================================================================== *)
(** ** The further properties on concrete inputs *)

Ltac prove_keys_unique :=
  repeat first
    [ apply NoDup_nil
    | apply NoDup_cons; [simpl; intuition discriminate |]
    | exact I
    | progress simpl ].

Lemma convert_args_keeps_bundle_witness :
  @convert_args_to_tensor reference_backend ragged_list py_none None []
  = @map_children reference_backend
      (fun s => _nested_convert_to_tensor s py_none None) ragged_list [].
Proof.
  apply (proj1 (@convert_args_keeps_bundle reference_backend ragged_list
                  None [] eq_refl I eq_refl)).
Defined.

Lemma namedtuple_converted_by_field_witness :
  fst (@convert_args_to_tensor reference_backend point_record py_none None [])
  = Ok (NamedTuple "Point" unmarked
          [("x", py_tensor (Tensor "int32" (Num 1)));
           ("y", py_tensor (Tensor "int32" (Num 2)))]).
Proof.
  rewrite (proj2 (@namedtuple_converted_by_field reference_backend
                    point_record None [] eq_refl eq_refl
                    ltac:(unfold point_record; prove_keys_unique))).
  reflexivity.
Defined.

Lemma whole_structure_success_is_final_witness :
  @_nested_convert_to_tensor reference_backend int_pair py_none None []
  = (Ok (py_tensor vector_2), [Converted int_pair py_none py_none None]).
Proof.
  apply (@whole_structure_success_is_final reference_backend int_pair None
           [] [Converted int_pair py_none py_none None] vector_2
           eq_refl eq_refl eq_refl).
Defined.

Lemma nested_convert_is_eager_witness :
  eagerly_converted ragged_list
    (py_list [py_tensor (Tensor "int32" (Num 1));
              py_tensor (Tensor "int32" (Arr [Num 2; Num 3]))]).
Proof.
  apply (@nested_convert_is_eager reference_backend ragged_list
           ltac:(unfold ragged_list, py_list; prove_well_formed)
           py_none None []
           (py_list [py_tensor (Tensor "int32" (Num 1));
                     py_tensor (Tensor "int32" (Arr [Num 2; Num 3]))])
           [Converted ragged_list py_none py_none None;
            Converted (py_int 1) py_none py_none None;
            Converted (py_list [py_int 2; py_int 3]) py_none py_none None]
           eq_refl).
Defined.

Lemma first_failing_child_ends_conversion_witness :
  @_nested_convert_to_tensor reference_backend list_with_none py_none None []
  = (Raise (ValueError
       "Attempt to convert a value with an unsupported type to a Tensor."),
     [Converted list_with_none py_none py_none None;
      Converted (py_int 1) py_none py_none None;
      Converted py_none py_none py_none None]).
Proof.
  apply (@first_failing_child_ends_conversion reference_backend
           list_with_none None [py_int 1] [py_int 3] py_none []
           [Converted list_with_none py_none py_none None]
           [Converted list_with_none py_none py_none None;
            Converted (py_int 1) py_none py_none None]
           [Converted list_with_none py_none py_none None;
            Converted (py_int 1) py_none py_none None;
            Converted py_none py_none py_none None]
           [py_tensor (Tensor "int32" (Num 1))]
           (ValueError
              "Attempt to convert a value with an unsupported type to a Tensor.")
           eq_refl eq_refl).
  - right. split; [reflexivity |]. eexists. split; reflexivity.
  - reflexivity.
  - reflexivity.
Defined.

Lemma broadcast_matches_template_witness :
  exists R,
    broadcast_structure example_template (py_list [py_str "d"]) = Ok R
    /\ assert_same_structure example_template R = Ok tt.
Proof.
  apply (broadcast_matches_template example_template (py_list [py_str "d"])
           well_formed_example_template eq_refl).
Defined.

Lemma broadcast_onto_leaf_unwraps_witness :
  broadcast_structure (py_str "a") (py_list [py_list [py_str "d"]])
  = Ok (py_str "d").
Proof.
  apply (proj1 (broadcast_onto_leaf_unwraps (py_str "a")
                  (py_list [py_list [py_str "d"]]) (py_str "d")
                  eq_refl eq_refl)).
Defined.

Lemma call_fn_expands_strings_witness :
  call_fn arity_probe (py_str "ab") = Ok (2, 0).
Proof.
  unfold py_str.
  rewrite (proj1 (call_fn_expands_strings arity_probe unmarked "ab" eq_refl)).
  reflexivity.
Defined.

Lemma shallow_structure_masks_children_witness :
  exists shallow,
    _get_shallow_structure scalar_dict = Ok shallow
    /\ node_related (fun _ c => c = py_false) scalar_dict shallow
    /\ assert_shallow_structure true shallow scalar_dict = Ok tt
    /\ flatten_up_to shallow scalar_dict true = Ok (_yield_value scalar_dict).
Proof.
  apply (proj2 (shallow_structure_masks_children scalar_dict
                  ltac:(unfold scalar_dict; prove_keys_unique))).
  reflexivity.
Defined.

Lemma structured_dtype_shapes_output_witness :
  matches_up_to
    (fun d r' => is_none d = false -> exists t, r' = py_tensor t)
    float_then_any
    (py_list [py_tensor (Tensor "float32" (Arr [Num 1; Num 2]));
              py_tensor (Tensor "int32" (Arr [Num 3]))]).
Proof.
  apply (@structured_dtype_shapes_output reference_backend two_parts
           float_then_any None []
           [Converted (py_list [py_int 1; py_int 2]) (py_dtype "float32")
              py_none None;
            Converted (py_list [py_int 3]) py_none py_none None]
           (py_list [py_tensor (Tensor "float32" (Arr [Num 1; Num 2]));
                     py_tensor (Tensor "int32" (Arr [Num 3]))])
           ltac:(unfold float_then_any, py_list; prove_well_formed)
           eq_refl eq_refl).
Defined.

Lemma structured_dtype_rejects_leaf_args_witness :
  @convert_args_to_tensor reference_backend (py_int 1) float_then_any None []
  = (Raise (TypeError
       "If shallow structure is a sequence, input must also be a sequence."),
     []).
Proof.
  apply (@structured_dtype_rejects_leaf_args reference_backend (py_int 1)
           float_then_any None [] eq_refl eq_refl).
Defined.

Lemma nested_dtype_shapes_output_witness :
  same_shape
    (py_dict [("a", py_tensor (Tensor "int32" (Num 1)));
              ("b", py_tensor (Tensor "int32" (Arr [Num 2; Num 3])))])
    any_any.
Proof.
  apply (proj2 (@nested_dtype_shapes_output reference_backend int_and_list
                  any_any py_none true (Some "root") []
                  [ScopeEntered "root";
                   Converted (py_int 1) py_none py_none (Some "a");
                   Converted (py_list [py_int 2; py_int 3]) py_none py_none
                     (Some "b");
                   ScopeExited]
                  (py_dict [("a", py_tensor (Tensor "int32" (Num 1)));
                            ("b", py_tensor
                                    (Tensor "int32" (Arr [Num 2; Num 3])))])
                  eq_refl
                  ltac:(unfold any_any, py_dict; prove_well_formed)
                  eq_refl)).
Defined.

Lemma atomic_constraint_is_tiled_witness :
  @convert_to_nested_tensor reference_backend int_and_list any_any
    (py_dtype "float32") true None []
  = @convert_to_nested_tensor reference_backend int_and_list any_any
      (py_dict [("a", py_dtype "float32"); ("b", py_dtype "float32")])
      true None [].
Proof.
  apply (proj1 (@atomic_constraint_is_tiled reference_backend int_and_list
                  any_any (py_dtype "float32") true None [])
           eq_refl eq_refl
           ltac:(unfold any_any, py_dict; prove_well_formed)).
Defined.


Lemma guard_passes_plain_values_witness :
  @convert_to_nested_tensor reference_backend (py_tensor vector_2) py_none
    py_none false (Some "x") []
  = (Ok (py_tensor vector_2),
     [Converted (py_tensor vector_2) py_none py_none (Some "x")]).
Proof.
  rewrite (@guard_passes_plain_values reference_backend (py_tensor vector_2)
             py_none py_none false (Some "x") [] eq_refl eq_refl
             (or_introl eq_refl)).
  reflexivity.
Defined.
